(** * temporal-workflow: the CI pipeline workflow and its deploy gate

    A shallow embedding of [pipeline/run.go]: the activity parameter and
    result structs, the [PipelineWorkflow] function (clone, fan-out of six
    checks, fan-in over a selector, classification, gated deploy, workdir
    cleanup) and the gate [hasErrors] / [isEmptyOrNil].

    The workflow talks to the durable substrate through [ExecuteActivity],
    [Get] and a [Selector].  These are modelled by a small monad that threads
    the workflow history (the activities scheduled and the futures the
    selector fired, in order) and ends in a returned value, a returned error
    or a blocked workflow. *)

From Stdlib Require Import String List ZArith Bool Arith Lia.
Import ListNotations.
Open Scope string_scope.
Open Scope list_scope.

(** ** Go values *)

(** A slice is nil or holds elements; both a nil and an empty slice have
    length zero. *)
Definition slice (A : Type) : Type := option (list A).

Definition len {A : Type} (s : slice A) : nat :=
  match s with
  | None => 0
  | Some xs => length xs
  end.

(** A [float64], kept as its IEEE-754 bit pattern; the workflow never
    computes with it. *)
Definition float64 : Type := Z.

(** The dynamic values an [any] can hold, as far as [reflect] tells them
    apart. *)
#[warnings="-register-all"]
Inductive GoValue : Type :=
| VBool (b : bool)
| VInt (n : Z)
| VFloat64 (bits : float64)
| VString (s : string)
| VSlice (elems : option (list GoValue))
| VArray (elems : list GoValue)
| VMap (entries : option (list (GoValue * GoValue)))
| VStruct (fields : list (string * GoValue))
| VPointer (target : option GoValue).

(** [any]: the nil interface, or a dynamic value. *)
Definition any : Type := option GoValue.

Module reflect.

(** The kinds of the values above. *)
Inductive Kind : Type :=
| Bool | Int | Float64 | Array | Map | Pointer | Slice | String | Struct.

(** [Value.Kind()] *)
Definition Value_Kind (v : GoValue) : Kind :=
  match v with
  | VBool _ => Bool
  | VInt _ => Int
  | VFloat64 _ => Float64
  | VString _ => String
  | VSlice _ => Slice
  | VArray _ => Array
  | VMap _ => Map
  | VStruct _ => Struct
  | VPointer _ => Pointer
  end.

(** [Value.Len()]; in Go it panics on a kind that has no length, which
    [isEmptyOrNil] never asks for (0 here). *)
Definition Value_Len (v : GoValue) : nat :=
  match v with
  | VString s => String.length s
  | VSlice s => len s
  | VArray a => length a
  | VMap m => len m
  | _ => 0
  end.

(** [Value.IsNil()]; in Go it panics on a kind that cannot be nil, which
    [isEmptyOrNil] never asks for (false here). *)
Definition Value_IsNil (v : GoValue) : bool :=
  match v with
  | VSlice None | VMap None | VPointer None => true
  | _ => false
  end.

End reflect.

(** An [error] value: its message and the dynamic value behind the
    interface. *)
Record error : Type := { Error : string; dynamic : GoValue }.

(** [errors.New(msg)]: a pointer to a struct holding the message. *)
Definition errors_New (msg : string) : error :=
  {| Error := msg;
     dynamic := VPointer (Some (VStruct [("s", VString msg)])) |}.

(** [fmt.Errorf(prefix + "%w", err)] *)
Definition Errorf_w (prefix : string) (err : error) : error :=
  {| Error := prefix ++ Error err;
     dynamic := VPointer (Some (VStruct [("msg", VString (prefix ++ Error err));
                                         ("err", dynamic err)])) |}.

(** ** Activity parameters and results (run.go, lines 21-116) *)

Record PipelineActivityMetadata : Type := { Workdir : string }.

Record GitCloneParams : Type :=
  { GitCloneParams_Metadata : PipelineActivityMetadata; Remote : string }.
Record GitCloneResult : Type :=
  { GitCloneResult_Metadata : PipelineActivityMetadata }.

Record GoDeployParams : Type :=
  { GoDeployParams_Metadata : PipelineActivityMetadata }.
Record GoDeployResult : Type :=
  { Success : bool; GoDeployResult_Error : option error }.

Record GoTestParams : Type :=
  { GoTestParams_Metadata : PipelineActivityMetadata;
    GoTestParams_Flags : slice string }.
Record GoTestCLIOutput : Type :=
  { Action : string; Package : string; Test : string; Elapsed : float64 }.
Record GoTestResult : Type :=
  { GoTestResult_Metadata : PipelineActivityMetadata;
    FailedTests : slice GoTestCLIOutput }.

Record GoBuildParams : Type :=
  { GoBuildParams_Metadata : PipelineActivityMetadata;
    GoBuildParams_Flags : slice string }.
Record GoBuildResult : Type :=
  { GoBuildResult_Metadata : PipelineActivityMetadata;
    GoBuildResult_FailedFiles : slice string }.

Record GoModTidyParams : Type :=
  { GoModTidyParams_Metadata : PipelineActivityMetadata }.
Record GoModTidyResult : Type :=
  { GoModTidyResult_Metadata : PipelineActivityMetadata;
    GoModTidyResult_FailedFiles : slice string }.

Record GoGenerateParams : Type :=
  { GoGenerateParams_Metadata : PipelineActivityMetadata;
    GoGenerateParams_Flags : slice string }.
Record GoGenerateResult : Type :=
  { GoGenerateResult_Metadata : PipelineActivityMetadata;
    GoGenerateResult_FailedFiles : slice string }.

Record GolangCILintParams : Type :=
  { GolangCILintParams_Metadata : PipelineActivityMetadata }.
Record GolangCILintResult : Type := { Issues : slice string }.

Record GoFmtParams : Type :=
  { GoFmtParams_Metadata : PipelineActivityMetadata }.
Record GoFmtResult : Type :=
  { GoFmtResult_Metadata : PipelineActivityMetadata;
    GoFmtResult_FailedFiles : slice string }.

Record DeleteWorkdirParams : Type :=
  { DeleteWorkdirParams_Metadata : PipelineActivityMetadata }.

(** The zero values the workflow declares before decoding into them. *)
Definition zero_Metadata : PipelineActivityMetadata := {| Workdir := "" |}.
Definition zero_GitCloneResult : GitCloneResult :=
  {| GitCloneResult_Metadata := zero_Metadata |}.
Definition zero_GoDeployResult : GoDeployResult :=
  {| Success := false; GoDeployResult_Error := None |}.
Definition zero_GoTestResult : GoTestResult :=
  {| GoTestResult_Metadata := zero_Metadata; FailedTests := None |}.
Definition zero_GoFmtResult : GoFmtResult :=
  {| GoFmtResult_Metadata := zero_Metadata; GoFmtResult_FailedFiles := None |}.
Definition zero_GoModTidyResult : GoModTidyResult :=
  {| GoModTidyResult_Metadata := zero_Metadata;
     GoModTidyResult_FailedFiles := None |}.
Definition zero_GoBuildResult : GoBuildResult :=
  {| GoBuildResult_Metadata := zero_Metadata;
     GoBuildResult_FailedFiles := None |}.
Definition zero_GoGenerateResult : GoGenerateResult :=
  {| GoGenerateResult_Metadata := zero_Metadata;
     GoGenerateResult_FailedFiles := None |}.
Definition zero_GolangCILintResult : GolangCILintResult :=
  {| Issues := None |}.

(** What a typed value becomes when it is stored in an [any]. *)
Definition any_of_string (s : string) : any := Some (VString s).

Definition any_of_strings (xs : slice string) : any :=
  Some (VSlice (option_map (map VString) xs)).

Definition value_of_GoTestCLIOutput (t : GoTestCLIOutput) : GoValue :=
  VStruct [("Action", VString (Action t)); ("Package", VString (Package t));
           ("Test", VString (Test t)); ("Elapsed", VFloat64 (Elapsed t))].

Definition any_of_tests (xs : slice GoTestCLIOutput) : any :=
  Some (VSlice (option_map (map value_of_GoTestCLIOutput) xs)).

Definition any_of_error (e : option error) : any :=
  match e with
  | None => None
  | Some err => Some (dynamic err)
  end.

(** ** The workflow's parameters and result (run.go, lines 410-431) *)

Record PipelineParams : Type :=
  { GitURL : string;
    TestFlags : slice string;
    BuildFlags : slice string;
    GenerateFlags : slice string }.

Record PipelineFailure : Type := { Activity : string; Details : any }.

(** [Failures] starts as the empty non-nil slice and only grows by
    [append]: a list. *)
Record PipelineResult : Type := { Failures : list PipelineFailure }.

Definition append_failure (result : PipelineResult) (f : PipelineFailure)
  : PipelineResult :=
  {| Failures := Failures result ++ [f] |}.

(** ** The deploy gate (run.go, lines 556-579) *)

Definition isEmptyOrNil (value : any) : bool :=
  match value with
  | None => true
  | Some v =>
      match reflect.Value_Kind v with
      | reflect.String => Nat.eqb (reflect.Value_Len v) 0
      | reflect.Slice =>
          Nat.eqb (reflect.Value_Len v) 0 || reflect.Value_IsNil v
      | _ => false
      end
  end.

Fixpoint hasErrors_range (failures : list PipelineFailure) : bool :=
  match failures with
  | [] => false
  | failure :: rest =>
      if negb (isEmptyOrNil (Details failure)) then true
      else hasErrors_range rest
  end.

Definition hasErrors (result : PipelineResult) : bool :=
  hasErrors_range (Failures result).

(** ** The durable substrate, as the workflow sees it *)

(** The activities of [PipelineActivity], as the workflow observes them
    through a future: what the handle finally resolves to, after the
    substrate's retries and timeouts, for given parameters. *)
Record PipelineActivity : Type :=
  { GitClone : GitCloneParams -> GitCloneResult + error;
    GoFmt : GoFmtParams -> GoFmtResult + error;
    GoTest : GoTestParams -> GoTestResult + error;
    DeleteWorkdir : DeleteWorkdirParams -> option error;
    GoModTidy : GoModTidyParams -> GoModTidyResult + error;
    GoBuild : GoBuildParams -> GoBuildResult + error;
    GoGenerate : GoGenerateParams -> GoGenerateResult + error;
    GolangCILint : GolangCILintParams -> GolangCILintResult + error;
    GoDeploy : GoDeployParams -> GoDeployResult + error }.

(** One [workflow.ExecuteActivity] call: the activity and its argument. *)
Inductive ActivityCall : Type :=
| Call_GitClone (p : GitCloneParams)
| Call_GoFmt (p : GoFmtParams)
| Call_GoTest (p : GoTestParams)
| Call_DeleteWorkdir (p : DeleteWorkdirParams)
| Call_GoModTidy (p : GoModTidyParams)
| Call_GoBuild (p : GoBuildParams)
| Call_GoGenerate (p : GoGenerateParams)
| Call_GolangCILint (p : GolangCILintParams)
| Call_GoDeploy (p : GoDeployParams).

(** The encoded result a future carries until [Get] decodes it. *)
Inductive Payload : Type :=
| Payload_GitClone (r : GitCloneResult)
| Payload_GoFmt (r : GoFmtResult)
| Payload_GoTest (r : GoTestResult)
| Payload_None
| Payload_GoModTidy (r : GoModTidyResult)
| Payload_GoBuild (r : GoBuildResult)
| Payload_GoGenerate (r : GoGenerateResult)
| Payload_GolangCILint (r : GolangCILintResult)
| Payload_GoDeploy (r : GoDeployResult).

(** [workflow.Future]: the call it stands for, the logical time at which
    it becomes ready and what it resolves to. *)
Record Future : Type :=
  { call : ActivityCall; ready_at : nat; resolved : Payload + error }.

(** The decoders behind [Get(ctx, &r)], one per result type. *)
Definition as_GitCloneResult (p : Payload) : option GitCloneResult :=
  match p with Payload_GitClone r => Some r | _ => None end.
Definition as_GoFmtResult (p : Payload) : option GoFmtResult :=
  match p with Payload_GoFmt r => Some r | _ => None end.
Definition as_GoTestResult (p : Payload) : option GoTestResult :=
  match p with Payload_GoTest r => Some r | _ => None end.
Definition as_GoModTidyResult (p : Payload) : option GoModTidyResult :=
  match p with Payload_GoModTidy r => Some r | _ => None end.
Definition as_GoBuildResult (p : Payload) : option GoBuildResult :=
  match p with Payload_GoBuild r => Some r | _ => None end.
Definition as_GoGenerateResult (p : Payload) : option GoGenerateResult :=
  match p with Payload_GoGenerate r => Some r | _ => None end.
Definition as_GolangCILintResult (p : Payload) : option GolangCILintResult :=
  match p with Payload_GolangCILint r => Some r | _ => None end.
(** A result of Deploy is handed over as the handle carries it; which
    results a handle can carry is stated by [Deploy_result_decodes]. *)
Definition as_GoDeployResult (p : Payload) : option GoDeployResult :=
  match p with Payload_GoDeploy r => Some r | _ => None end.
(** [Get(ctx, nil)] decodes nothing. *)
Definition as_nil (p : Payload) : option unit := Some tt.

(** [future.Get(ctx, &r)]: the value left in [r] and the error returned.
    On an error [r] keeps the value it had.  A payload of another type
    than [r]'s does not decode; [PipelineWorkflow] pairs every future with
    its own decoder, so that it never meets that case. *)
Definition Get {A : Type} (decode : Payload -> option A) (r : A) (f : Future)
  : A * option error :=
  match resolved f with
  | inr err => (r, Some err)
  | inl p =>
      match decode p with
      | Some v => (v, None)
      | None => (r, Some (errors_New "payload does not decode into the result type"))
      end
  end.

(** What the workflow history records. *)
Inductive Event : Type :=
| ActivityScheduled (c : ActivityCall)
| FutureSelected (c : ActivityCall).

Definition History : Type := list Event.

(** How a workflow function ends: it returns a value, returns an error, or
    waits for ever. *)
Inductive Outcome (A : Type) : Type :=
| Returned (a : A)
| Failed (err : error)
| Blocked.
Arguments Returned {A} a.
Arguments Failed {A} err.
Arguments Blocked {A}.

Definition Workflow (A : Type) : Type := History -> Outcome A * History.

Definition ret {A : Type} (a : A) : Workflow A := fun h => (Returned a, h).

Definition bind {A B : Type} (m : Workflow A) (k : A -> Workflow B)
  : Workflow B :=
  fun h =>
    match m h with
    | (Returned a, h') => k a h'
    | (Failed err, h') => (Failed err, h')
    | (Blocked, h') => (Blocked, h')
    end.

(** [return nil, err] *)
Definition fail {A : Type} (err : error) : Workflow A :=
  fun h => (Failed err, h).

Definition record (e : Event) : Workflow unit :=
  fun h => (Returned tt, h ++ [e]).

Declare Scope workflow_scope.
Delimit Scope workflow_scope with workflow.
Notation "x <- m ;; k" := (bind m (fun x => k))
  (at level 100, m at next level, right associativity) : workflow_scope.
Notation "m ;; k" := (bind m (fun _ => k))
  (at level 100, right associativity) : workflow_scope.

(** [workflow.Selector]: the futures added and not yet fired, in the
    order they were added.  The callbacks [PipelineWorkflow] adds are
    empty, so none is kept. *)
Definition Selector : Type := list Future.

Definition NewSelector : Selector := [].

Definition AddFuture (s : Selector) (f : Future) : Selector := s ++ [f].

(** The pending future that is ready first; of two that are ready at the
    same time, the one added first. *)
Fixpoint first_ready (s : Selector) : option (Future * Selector) :=
  match s with
  | [] => None
  | f :: rest =>
      match first_ready rest with
      | None => Some (f, [])
      | Some (g, rest') =>
          if Nat.ltb (ready_at g) (ready_at f) then Some (g, f :: rest')
          else Some (f, rest)
      end
  end.

(** [selector.Select(ctx)]: waits for one pending future and fires it.
    With nothing pending it waits for ever. *)
Definition Select (s : Selector) : Workflow Selector :=
  match first_ready s with
  | None => fun h => (Blocked, h)
  | Some (f, rest) =>
      (record (FutureSelected (call f)) ;; ret rest)%workflow
  end.

(** ** The workflow (run.go, lines 433-554) *)

Section Pipeline.

(** [var pa = PipelineActivity{}]: the activities behind the workflow. *)
Variable pa : PipelineActivity.

(** When the handle of a call becomes ready; it differs from run to run. *)
Variable latency : ActivityCall -> nat.

(** What the handle of a call resolves to. *)
Definition resolution (c : ActivityCall) : Payload + error :=
  match c with
  | Call_GitClone p =>
      match GitClone pa p with inl r => inl (Payload_GitClone r) | inr e => inr e end
  | Call_GoFmt p =>
      match GoFmt pa p with inl r => inl (Payload_GoFmt r) | inr e => inr e end
  | Call_GoTest p =>
      match GoTest pa p with inl r => inl (Payload_GoTest r) | inr e => inr e end
  | Call_DeleteWorkdir p =>
      match DeleteWorkdir pa p with None => inl Payload_None | Some e => inr e end
  | Call_GoModTidy p =>
      match GoModTidy pa p with inl r => inl (Payload_GoModTidy r) | inr e => inr e end
  | Call_GoBuild p =>
      match GoBuild pa p with inl r => inl (Payload_GoBuild r) | inr e => inr e end
  | Call_GoGenerate p =>
      match GoGenerate pa p with inl r => inl (Payload_GoGenerate r) | inr e => inr e end
  | Call_GolangCILint p =>
      match GolangCILint pa p with inl r => inl (Payload_GolangCILint r) | inr e => inr e end
  | Call_GoDeploy p =>
      match GoDeploy pa p with inl r => inl (Payload_GoDeploy r) | inr e => inr e end
  end.

(** [workflow.ExecuteActivity(ctx, activity, params)]: schedules the
    activity and returns its future at once. *)
Definition ExecuteActivity (c : ActivityCall) : Workflow Future :=
  (record (ActivityScheduled c) ;;
   ret {| call := c; ready_at := latency c; resolved := resolution c |})%workflow.

(** [for i := 0; i < n; i++ { selector.Select(ctx) }] *)
Fixpoint Select_times (n : nat) (s : Selector) : Workflow Selector :=
  match n with
  | O => ret s
  | S n' => (s' <- Select s ;; Select_times n' s')%workflow
  end.

Definition is_nil (err : option error) : bool :=
  match err with None => true | Some _ => false end.

(** One turn of the loop over [activities] (lines 483-526): the switch
    on the activity's name, then the check of [err]. *)
Definition processActivity (result : PipelineResult)
           (activity : string * Future) : PipelineResult :=
  let (name, future) := activity in
  let '(result, err) :=
    if String.eqb name "GoTest" then
      let '(rTest, err) := Get as_GoTestResult zero_GoTestResult future in
      (if is_nil err && Nat.ltb 0 (len (FailedTests rTest))
       then append_failure result
              {| Activity := name; Details := any_of_tests (FailedTests rTest) |}
       else result, err)
    else if String.eqb name "GoFmt" then
      let '(rFmt, err) := Get as_GoFmtResult zero_GoFmtResult future in
      (if is_nil err && Nat.ltb 0 (len (GoFmtResult_FailedFiles rFmt))
       then append_failure result
              {| Activity := name;
                 Details := any_of_strings (GoFmtResult_FailedFiles rFmt) |}
       else result, err)
    else if String.eqb name "GoModTidy" then
      let '(rModTidy, err) := Get as_GoModTidyResult zero_GoModTidyResult future in
      (if is_nil err && Nat.ltb 0 (len (GoModTidyResult_FailedFiles rModTidy))
       then append_failure result
              {| Activity := name;
                 Details := any_of_strings (GoModTidyResult_FailedFiles rModTidy) |}
       else result, err)
    else if String.eqb name "GoBuild" then
      let '(rBuild, err) := Get as_GoBuildResult zero_GoBuildResult future in
      (if is_nil err && Nat.ltb 0 (len (GoBuildResult_FailedFiles rBuild))
       then append_failure result
              {| Activity := name;
                 Details := any_of_strings (GoBuildResult_FailedFiles rBuild) |}
       else result, err)
    else if String.eqb name "GoGenerate" then
      let '(rGenerate, err) := Get as_GoGenerateResult zero_GoGenerateResult future in
      (if is_nil err && Nat.ltb 0 (len (GoGenerateResult_FailedFiles rGenerate))
       then append_failure result
              {| Activity := name;
                 Details := any_of_strings (GoGenerateResult_FailedFiles rGenerate) |}
       else result, err)
    else if String.eqb name "GolangCILint" then
      let '(rLint, err) := Get as_GolangCILintResult zero_GolangCILintResult future in
      (if is_nil err && Nat.ltb 0 (len (Issues rLint))
       then append_failure result
              {| Activity := name; Details := any_of_strings (Issues rLint) |}
       else result, err)
    else (result, None) in
  match err with
  | Some e =>
      append_failure result
        {| Activity := name; Details := any_of_string (Error e) |}
  | None => result
  end.

Definition PipelineWorkflow (params : PipelineParams)
  : Workflow PipelineResult :=
  (let result := {| Failures := [] |} in
   fClone <- ExecuteActivity
               (Call_GitClone {| GitCloneParams_Metadata := zero_Metadata;
                                 Remote := GitURL params |}) ;;
   let '(rClone, err) := Get as_GitCloneResult zero_GitCloneResult fClone in
   match err with
   | Some err => fail (Errorf_w "GitClone activity: " err)
   | None =>
       let metadata := GitCloneResult_Metadata rClone in
       (* the activities to run in parallel, started in this order *)
       fGoTest <- ExecuteActivity
                    (Call_GoTest {| GoTestParams_Metadata := metadata;
                                    GoTestParams_Flags := TestFlags params |}) ;;
       fGoFmt <- ExecuteActivity
                   (Call_GoFmt {| GoFmtParams_Metadata := metadata |}) ;;
       fGoModTidy <- ExecuteActivity
                       (Call_GoModTidy {| GoModTidyParams_Metadata := metadata |}) ;;
       fGoBuild <- ExecuteActivity
                     (Call_GoBuild {| GoBuildParams_Metadata := metadata;
                                      GoBuildParams_Flags := BuildFlags params |}) ;;
       fGoGenerate <- ExecuteActivity
                        (Call_GoGenerate
                           {| GoGenerateParams_Metadata := metadata;
                              GoGenerateParams_Flags := GenerateFlags params |}) ;;
       fGolangCILint <- ExecuteActivity
                          (Call_GolangCILint
                             {| GolangCILintParams_Metadata := metadata |}) ;;
       let activities :=
         [("GoTest", fGoTest); ("GoFmt", fGoFmt); ("GoModTidy", fGoModTidy);
          ("GoBuild", fGoBuild); ("GoGenerate", fGoGenerate);
          ("GolangCILint", fGolangCILint)] in
       (* a selector to wait for all activities *)
       let selector :=
         fold_left (fun s activity => AddFuture s (snd activity))
                   activities NewSelector in
       _ <- Select_times (length activities) selector ;;
       (* process results *)
       let result := fold_left processActivity activities result in
       (* if all checks pass, execute deploy *)
       result <-
         (if negb (hasErrors result) then
            fDeploy <- ExecuteActivity
                         (Call_GoDeploy {| GoDeployParams_Metadata := metadata |}) ;;
            let '(rDeploy, err) := Get as_GoDeployResult zero_GoDeployResult fDeploy in
            match err with
            | Some err => fail (Errorf_w "deploy activity: " err)
            | None =>
                match GoDeployResult_Error rDeploy with
                | Some _ =>
                    ret (append_failure result
                           {| Activity := "Deploy";
                              Details := any_of_error (GoDeployResult_Error rDeploy) |})
                | None => ret result
                end
            end
          else ret result) ;;
       (* finally, clean up the directory *)
       fCleanup <- ExecuteActivity
                     (Call_DeleteWorkdir
                        {| DeleteWorkdirParams_Metadata := metadata |}) ;;
       let '(_, err) := Get as_nil tt fCleanup in
       match err with
       | Some err => fail (Errorf_w "deleteWorkdir activity: " err)
       | None => ret result
       end
   end)%workflow.

(** A run: the workflow started on an empty history. *)
Definition run (params : PipelineParams) : Outcome PipelineResult * History :=
  PipelineWorkflow params [].

End Pipeline.

(** ** Reading a run *)

(** The order in which a selector holding [s] fires its futures over [n]
    calls of [Select]. *)
Fixpoint firing_order (n : nat) (s : Selector) : list ActivityCall :=
  match n with
  | O => []
  | S n' =>
      match first_ready s with
      | None => []
      | Some (f, rest) => call f :: firing_order n' rest
      end
  end.

(** The metadata a call hands to its activity. *)
Definition call_metadata (c : ActivityCall) : PipelineActivityMetadata :=
  match c with
  | Call_GitClone p => GitCloneParams_Metadata p
  | Call_GoFmt p => GoFmtParams_Metadata p
  | Call_GoTest p => GoTestParams_Metadata p
  | Call_DeleteWorkdir p => DeleteWorkdirParams_Metadata p
  | Call_GoModTidy p => GoModTidyParams_Metadata p
  | Call_GoBuild p => GoBuildParams_Metadata p
  | Call_GoGenerate p => GoGenerateParams_Metadata p
  | Call_GolangCILint p => GolangCILintParams_Metadata p
  | Call_GoDeploy p => GoDeployParams_Metadata p
  end.

Definition event_call (e : Event) : ActivityCall :=
  match e with
  | ActivityScheduled c => c
  | FutureSelected c => c
  end.

Definition is_deploy (e : Event) : bool :=
  match e with
  | ActivityScheduled (Call_GoDeploy _) => true
  | _ => false
  end.

Definition is_cleanup (e : Event) : bool :=
  match e with
  | ActivityScheduled (Call_DeleteWorkdir _) => true
  | _ => false
  end.

Definition is_fanout (e : Event) : bool :=
  match e with
  | ActivityScheduled (Call_GoTest _) | ActivityScheduled (Call_GoFmt _)
  | ActivityScheduled (Call_GoModTidy _) | ActivityScheduled (Call_GoBuild _)
  | ActivityScheduled (Call_GoGenerate _)
  | ActivityScheduled (Call_GolangCILint _) => true
  | _ => false
  end.

(** How often a history invokes Deploy, Cleanup, a fan-out step. *)
Definition deploy_invocations (h : History) : nat := length (filter is_deploy h).
Definition cleanup_invocations (h : History) : nat := length (filter is_cleanup h).
Definition fanout_invocations (h : History) : nat := length (filter is_fanout h).

(** What one activity adds to the report, classified on its own. *)
Definition entries_of (activity : string * Future) : list PipelineFailure :=
  Failures (processActivity {| Failures := [] |} activity).

(** A fan-out step failed: its handle resolved with an error, or its typed
    result lists failed tests, failed files or lint issues. *)
Definition step_failed (o : Payload + error) : bool :=
  match o with
  | inr _ => true
  | inl (Payload_GoTest r) => Nat.ltb 0 (len (FailedTests r))
  | inl (Payload_GoFmt r) => Nat.ltb 0 (len (GoFmtResult_FailedFiles r))
  | inl (Payload_GoModTidy r) => Nat.ltb 0 (len (GoModTidyResult_FailedFiles r))
  | inl (Payload_GoBuild r) => Nat.ltb 0 (len (GoBuildResult_FailedFiles r))
  | inl (Payload_GoGenerate r) => Nat.ltb 0 (len (GoGenerateResult_FailedFiles r))
  | inl (Payload_GolangCILint r) => Nat.ltb 0 (len (Issues r))
  | inl _ => false
  end.

(** The details payload the outcome of a fan-out step carries: the error's
    message, or the list in the typed result. *)
Definition failure_details (o : Payload + error) : any :=
  match o with
  | inr err => any_of_string (Error err)
  | inl (Payload_GoTest r) => any_of_tests (FailedTests r)
  | inl (Payload_GoFmt r) => any_of_strings (GoFmtResult_FailedFiles r)
  | inl (Payload_GoModTidy r) => any_of_strings (GoModTidyResult_FailedFiles r)
  | inl (Payload_GoBuild r) => any_of_strings (GoBuildResult_FailedFiles r)
  | inl (Payload_GoGenerate r) => any_of_strings (GoGenerateResult_FailedFiles r)
  | inl (Payload_GolangCILint r) => any_of_strings (Issues r)
  | inl _ => None
  end.

(** The emptiness of a details payload in the words of the specification:
    nil, an empty string or an empty collection is no real failure.  Kept
    apart from [isEmptyOrNil], which is the code's test. *)
Definition no_real_failure (details : any) : bool :=
  match details with
  | None => true
  | Some (VString s) => Nat.eqb (String.length s) 0
  | Some (VSlice s) => Nat.eqb (len s) 0
  | Some (VArray a) => Nat.eqb (length a) 0
  | Some (VMap m) => Nat.eqb (len m) 0
  | Some _ => false
  end.

(** The failures that count for the gate, in the specification's words. *)
Definition real_failures (failures : list PipelineFailure)
  : list PipelineFailure :=
  filter (fun failure => negb (no_real_failure (Details failure))) failures.

(** The results the handle of Deploy can resolve to.  The field [Error] of
    [GoDeployResult] is an [error]: GoDeploy leaves it nil (run.go, line
    396), and the JSON data converter behind [Get] decodes nothing but
    null into an interface and answers anything else with an error of the
    handle.  So a handle of Deploy that resolves to a result resolves to
    one without error. *)
Definition Deploy_result_decodes (pa : PipelineActivity) : Prop :=
  forall params rDeploy,
    GoDeploy pa params = inl rDeploy -> GoDeployResult_Error rDeploy = None.

Section Reading.

Variable pa : PipelineActivity.
Variable latency : ActivityCall -> nat.

Definition future_of (c : ActivityCall) : Future :=
  {| call := c; ready_at := latency c; resolved := resolution pa c |}.

Definition clone_call (params : PipelineParams) : ActivityCall :=
  Call_GitClone {| GitCloneParams_Metadata := zero_Metadata;
                   Remote := GitURL params |}.

Definition deploy_call (metadata : PipelineActivityMetadata) : ActivityCall :=
  Call_GoDeploy {| GoDeployParams_Metadata := metadata |}.

Definition cleanup_call (metadata : PipelineActivityMetadata) : ActivityCall :=
  Call_DeleteWorkdir {| DeleteWorkdirParams_Metadata := metadata |}.

(** The six calls of the fan-out, in the order the workflow issues them. *)
Definition fanout_calls (params : PipelineParams)
           (metadata : PipelineActivityMetadata) : list ActivityCall :=
  [Call_GoTest {| GoTestParams_Metadata := metadata;
                  GoTestParams_Flags := TestFlags params |};
   Call_GoFmt {| GoFmtParams_Metadata := metadata |};
   Call_GoModTidy {| GoModTidyParams_Metadata := metadata |};
   Call_GoBuild {| GoBuildParams_Metadata := metadata;
                   GoBuildParams_Flags := BuildFlags params |};
   Call_GoGenerate {| GoGenerateParams_Metadata := metadata;
                      GoGenerateParams_Flags := GenerateFlags params |};
   Call_GolangCILint {| GolangCILintParams_Metadata := metadata |}].

Definition issue_order : list string :=
  ["GoTest"; "GoFmt"; "GoModTidy"; "GoBuild"; "GoGenerate"; "GolangCILint"].

(** The [activities] slice of the workflow. *)
Definition fanout_activities (params : PipelineParams)
           (metadata : PipelineActivityMetadata) : list (string * Future) :=
  combine issue_order (map future_of (fanout_calls params metadata)).

(** The names of the fan-out steps that failed, in issue order. *)
Definition failed_steps (params : PipelineParams)
           (metadata : PipelineActivityMetadata) : list string :=
  map fst (filter (fun step => step_failed (resolution pa (snd step)))
                  (combine issue_order (fanout_calls params metadata))).

(** [result] as the loop over [activities] leaves it. *)
Definition classified (params : PipelineParams)
           (metadata : PipelineActivityMetadata) : PipelineResult :=
  fold_left processActivity (fanout_activities params metadata)
            {| Failures := [] |}.

(** The history up to the end of the fan-in. *)
Definition fanin_history (params : PipelineParams)
           (metadata : PipelineActivityMetadata) : History :=
  ActivityScheduled (clone_call params)
    :: map ActivityScheduled (fanout_calls params metadata)
    ++ map FutureSelected
         (firing_order 6 (map future_of (fanout_calls params metadata))).

(** The entry Deploy adds to the report when its result carries an
    error. *)
Definition deploy_entry (metadata : PipelineActivityMetadata)
  : list PipelineFailure :=
  match GoDeploy pa {| GoDeployParams_Metadata := metadata |} with
  | inl rDeploy =>
      match GoDeployResult_Error rDeploy with
      | Some _ =>
          [{| Activity := "Deploy";
              Details := any_of_error (GoDeployResult_Error rDeploy) |}]
      | None => []
      end
  | inr _ => []
  end.

(** The last step of a run: the cleanup. *)
Definition cleaned_up (metadata : PipelineActivityMetadata)
           (result : PipelineResult) (h : History)
  : Outcome PipelineResult * History :=
  match DeleteWorkdir pa {| DeleteWorkdirParams_Metadata := metadata |} with
  | Some err =>
      (Failed (Errorf_w "deleteWorkdir activity: " err),
       h ++ [ActivityScheduled (cleanup_call metadata)])
  | None => (Returned result, h ++ [ActivityScheduled (cleanup_call metadata)])
  end.

End Reading.

(** ** Activities and inputs to run the workflow on

    The first two follow the mocks of [pipeline_test.go]. *)

Definition test_workdir : PipelineActivityMetadata := {| Workdir := "/tmp/test" |}.

Definition test_params : PipelineParams :=
  {| GitURL := "https://github.com/afanwang/go-sample.git";
     TestFlags := None; BuildFlags := None; GenerateFlags := None |}.

(** [mockAllActivitiesSuccess]: every step passes, Deploy succeeds. *)
Definition mockAllActivitiesSuccess : PipelineActivity :=
  {| GitClone := fun _ => inl {| GitCloneResult_Metadata := test_workdir |};
     GoFmt := fun _ => inl zero_GoFmtResult;
     GoTest := fun _ => inl zero_GoTestResult;
     DeleteWorkdir := fun _ => None;
     GoModTidy := fun _ => inl zero_GoModTidyResult;
     GoBuild := fun _ => inl zero_GoBuildResult;
     GoGenerate := fun _ => inl zero_GoGenerateResult;
     GolangCILint := fun _ => inl zero_GolangCILintResult;
     GoDeploy := fun _ => inl zero_GoDeployResult |}.

(** [mockActivitiesWithFailures]: test, build and generate fail. *)
Definition mockActivitiesWithFailures : PipelineActivity :=
  {| GitClone := fun _ => inl {| GitCloneResult_Metadata := test_workdir |};
     GoFmt := fun _ => inl zero_GoFmtResult;
     GoTest := fun _ =>
       inl {| GoTestResult_Metadata := zero_Metadata;
              FailedTests :=
                Some [{| Action := ""; Package := ""; Test := "TestFailed";
                         Elapsed := 0%Z |}] |};
     DeleteWorkdir := fun _ => None;
     GoModTidy := fun _ => inl zero_GoModTidyResult;
     GoBuild := fun _ =>
       inl {| GoBuildResult_Metadata := zero_Metadata;
              GoBuildResult_FailedFiles := Some ["main.go"] |};
     GoGenerate := fun _ =>
       inl {| GoGenerateResult_Metadata := zero_Metadata;
              GoGenerateResult_FailedFiles := Some ["generated.go"] |};
     GolangCILint := fun _ => inl zero_GolangCILintResult;
     GoDeploy := fun _ => inl zero_GoDeployResult |}.

(** The same activities with one of them replaced. *)
Definition with_GitClone (pa : PipelineActivity)
           (f : GitCloneParams -> GitCloneResult + error) : PipelineActivity :=
  {| GitClone := f; GoFmt := GoFmt pa; GoTest := GoTest pa;
     DeleteWorkdir := DeleteWorkdir pa; GoModTidy := GoModTidy pa;
     GoBuild := GoBuild pa; GoGenerate := GoGenerate pa;
     GolangCILint := GolangCILint pa; GoDeploy := GoDeploy pa |}.

Definition with_GoModTidy (pa : PipelineActivity)
           (f : GoModTidyParams -> GoModTidyResult + error) : PipelineActivity :=
  {| GitClone := GitClone pa; GoFmt := GoFmt pa; GoTest := GoTest pa;
     DeleteWorkdir := DeleteWorkdir pa; GoModTidy := f;
     GoBuild := GoBuild pa; GoGenerate := GoGenerate pa;
     GolangCILint := GolangCILint pa; GoDeploy := GoDeploy pa |}.

Definition with_GoDeploy (pa : PipelineActivity)
           (f : GoDeployParams -> GoDeployResult + error) : PipelineActivity :=
  {| GitClone := GitClone pa; GoFmt := GoFmt pa; GoTest := GoTest pa;
     DeleteWorkdir := DeleteWorkdir pa; GoModTidy := GoModTidy pa;
     GoBuild := GoBuild pa; GoGenerate := GoGenerate pa;
     GolangCILint := GolangCILint pa; GoDeploy := f |}.

(** A clone that exhausts its retries. *)
Definition clone_unreachable : PipelineActivity :=
  with_GitClone mockAllActivitiesSuccess
                (fun _ => inr (errors_New "repository not found")).

(** The handle of [go mod tidy] fails with a timeout. *)
Definition tidy_times_out : PipelineActivity :=
  with_GoModTidy mockAllActivitiesSuccess
                 (fun _ => inr (errors_New "activity StartToClose timeout")).

(** Every step passes and the handle of Deploy fails. *)
Definition deploy_unreachable : PipelineActivity :=
  with_GoDeploy mockAllActivitiesSuccess
                (fun _ => inr (errors_New "context canceled")).

(** Two completion orders: the issue order, and its reverse. *)
Definition in_issue_order (c : ActivityCall) : nat := 0.

Definition lint_first (c : ActivityCall) : nat :=
  match c with
  | Call_GolangCILint _ => 1
  | Call_GoGenerate _ => 2
  | Call_GoBuild _ => 3
  | Call_GoModTidy _ => 4
  | Call_GoFmt _ => 5
  | Call_GoTest _ => 6
  | _ => 0
  end.

From Stdlib Require Import Permutation.

(** ** Running a function that calls out

    The activities and the two commands of [main.go] call the operating
    system, the Temporal client and libraries.  A call is recorded, in
    order, and answered by the host the function runs on; a function ends
    with a value or with an error. *)

Definition Eff (E A : Type) : Type := list E * (A + error).

Definition eff_ret {E A : Type} (a : A) : Eff E A := ([], inl a).

(** [return nil, err] *)
Definition eff_fail {E A : Type} (err : error) : Eff E A := ([], inr err).

Definition eff_bind {E A B : Type} (m : Eff E A) (k : A -> Eff E B)
  : Eff E B :=
  match m with
  | (calls, inl a) => let (calls', r) := k a in (calls ++ calls', r)
  | (calls, inr err) => (calls, inr err)
  end.

(** One call, with the answer it got. *)
Definition eff_call {E A : Type} (e : E) (answer : A) : Eff E A :=
  ([e], inl answer).

(** [defer f()]: [f] runs when the function returns, with a value or with
    an error. *)
Definition eff_defer {E A : Type} (e : E) (body : Eff E A) : Eff E A :=
  let (calls, r) := body in (calls ++ [e], r).

Declare Scope eff_scope.
Delimit Scope eff_scope with eff.
Notation "x <- m ;; k" := (eff_bind m (fun x => k))
  (at level 100, m at next level, right associativity) : eff_scope.

(** ** The activities (run.go, lines 118-398) *)

Definition newline : Ascii.ascii := Ascii.Ascii false true false true false false false false.

(** [strings.Split(s, sep)] and [bytes.Split(s, sep)] for a separator of
    one byte, the only way the activities call them: the pieces between
    the separators, one more than there are separators. *)
Fixpoint Split (s : string) (sep : Ascii.ascii) : list string :=
  match s with
  | EmptyString => [EmptyString]
  | String c rest =>
      if Ascii.eqb c sep then EmptyString :: Split rest sep
      else
        match Split rest sep with
        | [] => [String c EmptyString]
        | piece :: pieces => String c piece :: pieces
        end
  end.

(** Whether a string holds a given byte. *)
Fixpoint Contains_byte (s : string) (c : Ascii.ascii) : bool :=
  match s with
  | EmptyString => false
  | String c' rest => Ascii.eqb c' c || Contains_byte rest c
  end.

(** Whether a string holds nothing but a given byte. *)
Fixpoint only_byte (s : string) (c : Ascii.ascii) : bool :=
  match s with
  | EmptyString => true
  | String c' rest => Ascii.eqb c' c && only_byte rest c
  end.

(** The text a command prints when it writes each line followed by a
    newline. *)
Fixpoint unlines (lines : list string) : string :=
  match lines with
  | [] => EmptyString
  | line :: rest => (line ++ String newline (unlines rest))%string
  end.

(** The elements of a slice, and [append(s, x)]. *)
Definition elements {A : Type} (s : slice A) : list A :=
  match s with
  | None => []
  | Some xs => xs
  end.

Definition append {A : Type} (s : slice A) (x : A) : slice A :=
  Some (elements s ++ [x]).

(** [exec.Cmd]: the program, its arguments and the directory it runs in. *)
Record Cmd : Type :=
  { cmd_name : string; cmd_args : list string; cmd_Dir : string }.

(** The error of [cmd.Run()]; it has an exit code when it is an
    [*exec.ExitError]. *)
Record RunError : Type := { run_error : error; ExitCode : option Z }.

(** What [cmd.Run()] leaves: the two buffers and the error. *)
Record Output : Type :=
  { Stdout : string; Stderr : string; run_err : option RunError }.

(** The calls an activity makes. *)
Inductive HostCall : Type :=
| Host_MkdirTemp (dir pattern : string)
| Host_Run (c : Cmd)
| Host_RemoveAll (path : string).

(** The host an activity runs on: how it answers each call, the id of the
    workflow execution, and whether the activity's context ends before a
    given deployment step does. *)
Record Host : Type :=
  { os_TempDir : string;
    os_MkdirTemp : string -> string -> string + error;
    cmd_Run : Cmd -> Output;
    os_RemoveAll : string -> option error;
    WorkflowExecution_ID : string;
    ctx_Done : string -> option error }.

Module Activities.

Section OnHost.

Variable host : Host.

(** [json.Unmarshal(body, &testOutput)] *)
Variable json_Unmarshal : string -> list GoTestCLIOutput + error.

Definition MkdirTemp (dir pattern : string) : Eff HostCall (string + error) :=
  eff_call (Host_MkdirTemp dir pattern) (os_MkdirTemp host dir pattern).

Definition Run (c : Cmd) : Eff HostCall Output :=
  eff_call (Host_Run c) (cmd_Run host c).

Definition RemoveAll (path : string) : Eff HostCall (option error) :=
  eff_call (Host_RemoveAll path) (os_RemoveAll host path).

(** GitClone clones a git repository to a directory; with no directory
    given, to a temporary one (lines 119-155). *)
Definition GitClone (params : GitCloneParams) : Eff HostCall GitCloneResult :=
  (let result := {| GitCloneResult_Metadata := GitCloneParams_Metadata params |} in
   result <-
     (if String.eqb (Workdir (GitCloneParams_Metadata params)) "" then
        made <- MkdirTemp (os_TempDir host) (WorkflowExecution_ID host) ;;
        match made with
        | inr err => eff_fail (Errorf_w "creating temporary directory: " err)
        | inl tempDir =>
            eff_ret {| GitCloneResult_Metadata := {| Workdir := tempDir |} |}
        end
      else eff_ret result) ;;
   let args := ["clone"; Remote params; "."] in
   out <- Run {| cmd_name := "git"; cmd_args := args;
                 cmd_Dir := Workdir (GitCloneResult_Metadata result) |} ;;
   match run_err out with
   | Some err => eff_fail (Errorf_w "running git clone command: " (run_error err))
   | None => eff_ret result
   end)%eff.

(** GoFmt runs [go fmt] (lines 158-187). *)
Definition GoFmt (params : GoFmtParams) : Eff HostCall GoFmtResult :=
  (let result := {| GoFmtResult_Metadata := GoFmtParams_Metadata params;
                    GoFmtResult_FailedFiles := Some [] |} in
   let args := ["fmt"; "./..."] in
   out <- Run {| cmd_name := "go"; cmd_args := args;
                 cmd_Dir := Workdir (GoFmtResult_Metadata result) |} ;;
   match run_err out with
   | Some err => eff_fail (Errorf_w "running go fmt command: " (run_error err))
   | None =>
       let files := Split (Stdout out) newline in
       eff_ret
         {| GoFmtResult_Metadata := GoFmtResult_Metadata result;
            GoFmtResult_FailedFiles :=
              fold_left
                (fun failed file =>
                   if Nat.ltb 0 (String.length file) then append failed file
                   else failed)
                files (GoFmtResult_FailedFiles result) |}
   end)%eff.

(** The loop that builds the JSON array out of the lines of [go test]
    (lines 216-221); [i] is the index of the first line of [lines] and [n]
    the number of all lines. *)
Fixpoint GoTest_body (lines : list string) (i n : Z) (body : string) : string :=
  match lines with
  | [] => body
  | line :: rest =>
      let body := (body ++ line)%string in
      let body := if Z.ltb i (n - 2) then (body ++ ",")%string else body in
      GoTest_body rest (i + 1)%Z n body
  end.

(** The JSON array GoTest makes of what [go test] printed (lines
    214-222). *)
Definition GoTest_array (stdout : string) : string :=
  let body := "[" in
  let lines := Split stdout newline in
  let body := GoTest_body lines 0 (Z.of_nat (length lines)) body in
  (body ++ "]")%string.

(** The lines of the decoded output that GoTest keeps (line 229). *)
Definition named_failure (line : GoTestCLIOutput) : bool :=
  String.eqb (Action line) "fail" && negb (String.eqb (Test line) "").

(** GoTest runs [go test] (lines 190-239). *)
Definition GoTest (params : GoTestParams) : Eff HostCall GoTestResult :=
  (let result := {| GoTestResult_Metadata := GoTestParams_Metadata params;
                    FailedTests := Some [] |} in
   let args := ["test"; "./..."] in
   let args := args ++ elements (GoTestParams_Flags params) in
   out <- Run {| cmd_name := "go"; cmd_args := args;
                 cmd_Dir := Workdir (GoTestResult_Metadata result) |} ;;
   match run_err out with
   | Some err =>
       match ExitCode err with
       | Some _ =>
           (* a non-zero status is taken for failing tests *)
           let body := GoTest_array (Stdout out) in
           match json_Unmarshal body with
           | inr err => eff_fail (Errorf_w "unmarshalling JSON output: " err)
           | inl testOutput =>
               eff_ret
                 {| GoTestResult_Metadata := GoTestResult_Metadata result;
                    FailedTests :=
                      fold_left
                        (fun failed line =>
                           if named_failure line then append failed line
                           else failed)
                        testOutput (FailedTests result) |}
           end
       | None => eff_fail (Errorf_w "running go test command: " (run_error err))
       end
   | None => eff_ret result
   end)%eff.

(** DeleteWorkdir deletes the directory of the metadata (lines 242-253). *)
Definition DeleteWorkdir (params : DeleteWorkdirParams) : Eff HostCall unit :=
  (removed <- RemoveAll (Workdir (DeleteWorkdirParams_Metadata params)) ;;
   match removed with
   | Some err => eff_fail (Errorf_w "deleting workdir: " err)
   | None => eff_ret tt
   end)%eff.

(** GoModTidy runs [go mod tidy] (lines 256-279). *)
Definition GoModTidy (params : GoModTidyParams) : Eff HostCall GoModTidyResult :=
  (let result := {| GoModTidyResult_Metadata := GoModTidyParams_Metadata params;
                    GoModTidyResult_FailedFiles := Some [] |} in
   let args := ["mod"; "tidy"] in
   out <- Run {| cmd_name := "go"; cmd_args := args;
                 cmd_Dir := Workdir (GoModTidyParams_Metadata params) |} ;;
   match run_err out with
   | Some err => eff_fail (Errorf_w "running go mod tidy command: " (run_error err))
   | None => eff_ret result
   end)%eff.

(** GoBuild runs [go build] (lines 282-306). *)
Definition GoBuild (params : GoBuildParams) : Eff HostCall GoBuildResult :=
  (let result := {| GoBuildResult_Metadata := GoBuildParams_Metadata params;
                    GoBuildResult_FailedFiles := Some [] |} in
   let args := ["build"; "./..."] in
   let args := args ++ elements (GoBuildParams_Flags params) in
   out <- Run {| cmd_name := "go"; cmd_args := args;
                 cmd_Dir := Workdir (GoBuildParams_Metadata params) |} ;;
   match run_err out with
   | Some err => eff_fail (Errorf_w "running go build command: " (run_error err))
   | None => eff_ret result
   end)%eff.

(** GoGenerate runs [go generate] (lines 309-333). *)
Definition GoGenerate (params : GoGenerateParams) : Eff HostCall GoGenerateResult :=
  (let result := {| GoGenerateResult_Metadata := GoGenerateParams_Metadata params;
                    GoGenerateResult_FailedFiles := Some [] |} in
   let args := ["generate"; "./..."] in
   let args := args ++ elements (GoGenerateParams_Flags params) in
   out <- Run {| cmd_name := "go"; cmd_args := args;
                 cmd_Dir := Workdir (GoGenerateParams_Metadata params) |} ;;
   match run_err out with
   | Some err => eff_fail (Errorf_w "running go generate command: " (run_error err))
   | None => eff_ret result
   end)%eff.

(** GolangCILint runs [golangci-lint run] (lines 336-371). *)
Definition GolangCILint (params : GolangCILintParams)
  : Eff HostCall GolangCILintResult :=
  (let result := {| Issues := Some [] |} in
   let args := ["run"] in
   out <- Run {| cmd_name := "golangci-lint"; cmd_args := args;
                 cmd_Dir := Workdir (GolangCILintParams_Metadata params) |} ;;
   match run_err out with
   | Some err =>
       match ExitCode err with
       | Some _ =>
           (* lint issues are on stdout; not a hard failure *)
           let lines := Split (Stdout out) newline in
           eff_ret
             {| Issues :=
                 fold_left
                   (fun issues line =>
                      if Nat.ltb 0 (String.length line) then append issues line
                      else issues)
                   lines (Issues result) |}
       | None =>
           eff_fail (Errorf_w "running golangci-lint command: " (run_error err))
       end
   | None => eff_ret result
   end)%eff.

(** The loop over the deployment steps (lines 381-389): each step waits
    for two seconds or for the end of the context, whichever comes
    first. *)
Fixpoint GoDeploy_steps (steps : list string) : option error :=
  match steps with
  | [] => None
  | step :: rest =>
      match ctx_Done host step with
      | Some err => Some err
      | None => GoDeploy_steps rest
      end
  end.

(** GoDeploy simulates a deployment (lines 374-398). *)
Definition GoDeploy (params : GoDeployParams) : Eff HostCall GoDeployResult :=
  let steps := ["Preparing"; "Uploading"; "Configuring"; "Starting"] in
  match GoDeploy_steps steps with
  | Some err => eff_fail err
  | None => eff_ret {| Success := true; GoDeployResult_Error := None |}
  end.

End OnHost.

End Activities.

(** ** The commands (main.go, worker.go, temporal.go, the pipeline command) *)

(** [Validate] (run.go, lines 417-422) *)
Definition Validate (pp : PipelineParams) : option error :=
  if String.eqb (GitURL pp) "" then Some (errors_New "GitURL is required")
  else None.

Record WorkflowOptions : Type := { Input : string }.

Record TemporalOptions : Type :=
  { HostPort : string; Namespace : string; Queue : string }.

(** The calls a command makes. *)
Inductive ClientCall : Type :=
| Signal_NotifyContext
| Signal_cancel
| Client_Dial (hostPort namespace : string)
| Client_Close
| OS_ReadFile (path : string)
| Client_ExecuteWorkflow (id taskQueue workflowType : string)
                         (params : PipelineParams)
| WorkflowRun_Get
| Worker_New (taskQueue : string)
| Worker_RegisterWorkflow (name : string)
| Worker_RegisterActivity (name : string)
| Worker_Run.

(** What a command finds around it: the environment variables as
    [envconfig] binds them, the Temporal server, the input file, and the
    library functions it formats names with. *)
Record Process : Type :=
  { envconfig_workflow : WorkflowOptions + error;
    envconfig_temporal : TemporalOptions + error;
    envconfig_worker : option error;
    tclient_DialContext : string -> string -> option error;
    os_ReadFile : string -> string + error;
    yaml_Unmarshal : string -> PipelineParams + error;
    slug_Make : string -> string;
    strconv_Quote : string -> string;
    client_ExecuteWorkflow :
      string -> string -> string -> PipelineParams -> option error;
    workflowRun_Get : string -> PipelineParams -> option error;
    worker_Run : option error }.

(** The name under which the SDK knows an activity method, and the
    workflow function. *)
Definition activity_name (c : ActivityCall) : string :=
  match c with
  | Call_GitClone _ => "GitClone"
  | Call_GoFmt _ => "GoFmt"
  | Call_GoTest _ => "GoTest"
  | Call_DeleteWorkdir _ => "DeleteWorkdir"
  | Call_GoModTidy _ => "GoModTidy"
  | Call_GoBuild _ => "GoBuild"
  | Call_GoGenerate _ => "GoGenerate"
  | Call_GolangCILint _ => "GolangCILint"
  | Call_GoDeploy _ => "GoDeploy"
  end.

Definition PipelineWorkflow_name : string := "PipelineWorkflow".

Section Commands.

Variable proc : Process.

(** [NewTemporalClient] (temporal.go, lines 15-20) *)
Definition NewTemporalClient (opts : TemporalOptions)
  : Eff ClientCall (option error) :=
  eff_call (Client_Dial (HostPort opts) (Namespace opts))
           (tclient_DialContext proc (HostPort opts) (Namespace opts)).

(** [RunPipeline] (the pipeline command, lines 21-65) *)
Definition RunPipeline : Eff ClientCall unit :=
  (_ <- eff_call Signal_NotifyContext tt ;;
   eff_defer Signal_cancel
     match envconfig_workflow proc with
     | inr err =>
         eff_fail (Errorf_w "failed to process environment variables: " err)
     | inl opts =>
         match envconfig_temporal proc with
         | inr err =>
             eff_fail
               (Errorf_w "failed to process Temporal environment variables: " err)
         | inl tOpts =>
             dialed <- NewTemporalClient tOpts ;;
             match dialed with
             | Some err =>
                 eff_fail
                   (Errorf_w ("failed to connect to Temporal server "
                              ++ strconv_Quote proc (HostPort tOpts) ++ ": ") err)
             | None =>
                 eff_defer Client_Close
                   (f <- eff_call (OS_ReadFile (Input opts))
                                  (os_ReadFile proc (Input opts)) ;;
                    match f with
                    | inr err =>
                        eff_fail
                          (Errorf_w ("failed to read input file "
                                     ++ strconv_Quote proc (Input opts) ++ ": ") err)
                    | inl f =>
                        match yaml_Unmarshal proc f with
                        | inr err =>
                            eff_fail
                              (Errorf_w ("failed to unmarshal input file "
                                         ++ strconv_Quote proc (Input opts) ++ ": ")
                                        err)
                        | inl params =>
                            match Validate params with
                            | Some err =>
                                eff_fail
                                  (Errorf_w ("invalid input file "
                                             ++ strconv_Quote proc (Input opts)
                                             ++ ": ") err)
                            | None =>
                                let id := ("PipelineWorkflow-"
                                           ++ slug_Make proc (GitURL params))%string in
                                started <-
                                  eff_call
                                    (Client_ExecuteWorkflow
                                       id (Queue tOpts) "PipelineWorkflow" params)
                                    (client_ExecuteWorkflow
                                       proc id (Queue tOpts) "PipelineWorkflow"
                                       params) ;;
                                match started with
                                | Some err =>
                                    eff_fail
                                      (Errorf_w "failed to execute workflow: " err)
                                | None =>
                                    got <- eff_call WorkflowRun_Get
                                             (workflowRun_Get proc id params) ;;
                                    match got with
                                    | Some err =>
                                        eff_fail
                                          (Errorf_w
                                             "failed to get workflow result: " err)
                                    | None => eff_ret tt
                                    end
                                end
                            end
                        end
                    end)
             end
         end
     end)%eff.

(** [RunWorker] (worker.go, lines 14-52) *)
Definition RunWorker : Eff ClientCall unit :=
  match envconfig_temporal proc with
  | inr err => eff_fail (Errorf_w "failed to process environment variables: " err)
  | inl tOpts =>
      match envconfig_worker proc with
      | Some err =>
          eff_fail
            (Errorf_w "failed to process Temporal environment variables: " err)
      | None =>
          (dialed <- NewTemporalClient tOpts ;;
           match dialed with
           | Some err =>
               eff_fail
                 (Errorf_w ("failed to connect to Temporal server "
                            ++ strconv_Quote proc (HostPort tOpts) ++ ": ") err)
           | None =>
               eff_defer Client_Close
                 (_ <- eff_call (Worker_New (Queue tOpts)) tt ;;
                  _ <- eff_call (Worker_RegisterWorkflow "PipelineWorkflow") tt ;;
                  _ <- eff_call (Worker_RegisterActivity "GitClone") tt ;;
                  _ <- eff_call (Worker_RegisterActivity "GoTest") tt ;;
                  _ <- eff_call (Worker_RegisterActivity "GoFmt") tt ;;
                  _ <- eff_call (Worker_RegisterActivity "GoGenerate") tt ;;
                  _ <- eff_call (Worker_RegisterActivity "GoModTidy") tt ;;
                  _ <- eff_call (Worker_RegisterActivity "GolangCILint") tt ;;
                  _ <- eff_call (Worker_RegisterActivity "GoBuild") tt ;;
                  _ <- eff_call (Worker_RegisterActivity "GoDeploy") tt ;;
                  _ <- eff_call (Worker_RegisterActivity "DeleteWorkdir") tt ;;
                  ran <- eff_call Worker_Run (worker_Run proc) ;;
                  match ran with
                  | Some err => eff_fail err
                  | None => eff_ret tt
                  end)
           end)%eff
      end
  end.

(** [commands] (main.go, lines 20-23): the map from a command's name to
    the function that runs it. *)
Definition commands (name : string) : option (Eff ClientCall unit) :=
  if String.eqb name "worker" then Some RunWorker
  else if String.eqb name "pipeline" then Some RunPipeline
  else None.

(** [main] (main.go, lines 25-43) on the arguments [os.Args]: the calls
    made and the exit status of the process, 1 after [os.Exit(1)] and 0
    when [main] returns.  What it prints is left out. *)
Definition main (Args : list string) : list ClientCall * Z :=
  if Nat.ltb (length Args) 2 then ([], 1%Z)
  else
    match commands (nth 1 Args "") with
    | None => ([], 1%Z)
    | Some cmd =>
        match cmd with
        | (calls, inr err) => (calls, 1%Z)
        | (calls, inl _) => (calls, 0%Z)
        end
    end.

End Commands.

(** ** Hosts and processes to run the activities and commands on *)

(** A host on which every command succeeds and prints [stdout]. *)
Definition quiet_host (stdout : string) : Host :=
  {| os_TempDir := "/tmp";
     os_MkdirTemp := fun dir pattern => inl (dir ++ "/" ++ pattern ++ "123")%string;
     cmd_Run := fun _ => {| Stdout := stdout; Stderr := ""; run_err := None |};
     os_RemoveAll := fun _ => None;
     WorkflowExecution_ID := "PipelineWorkflow-x";
     ctx_Done := fun _ => None |}.

(** A host on which every command exits with status 1 after printing
    [stdout]. *)
Definition failing_host (stdout : string) : Host :=
  {| os_TempDir := "/tmp";
     os_MkdirTemp := fun dir pattern => inl (dir ++ "/" ++ pattern ++ "123")%string;
     cmd_Run := fun _ =>
       {| Stdout := stdout; Stderr := "";
          run_err := Some {| run_error := errors_New "exit status 1";
                             ExitCode := Some 1%Z |} |};
     os_RemoveAll := fun _ => None;
     WorkflowExecution_ID := "PipelineWorkflow-x";
     ctx_Done := fun _ => None |}.

(** A decoder that knows the empty array only. *)
Definition decode_empty_array (body : string)
  : list GoTestCLIOutput + error :=
  if String.eqb body "[]" then inl []
  else inr (errors_New "invalid character").

(** A decoder that answers a package-level failure and a failed test. *)
Definition decode_two_failures (body : string)
  : list GoTestCLIOutput + error :=
  inl [{| Action := "fail"; Package := "p"; Test := ""; Elapsed := 0%Z |};
       {| Action := "fail"; Package := "p"; Test := "TestFail"; Elapsed := 0%Z |}].

(** A decoder that answers a failure of the package as a whole. *)
Definition decode_package_failure (body : string)
  : list GoTestCLIOutput + error :=
  inl [{| Action := "fail"; Package := "p"; Test := ""; Elapsed := 0%Z |}].

(** A process with everything in place; the input file holds [params]. *)
Definition ready_process (params : PipelineParams) : Process :=
  {| envconfig_workflow := inl {| Input := "simple.yaml" |};
     envconfig_temporal :=
       inl {| HostPort := "localhost:6433"; Namespace := "default";
              Queue := "pipeline" |};
     envconfig_worker := None;
     tclient_DialContext := fun _ _ => None;
     os_ReadFile := fun _ => inl "git_url: ...";
     yaml_Unmarshal := fun _ => inl params;
     slug_Make := fun s => s;
     strconv_Quote := fun s => s;
     client_ExecuteWorkflow := fun _ _ _ _ => None;
     workflowRun_Get := fun _ _ => None;
     worker_Run := None |}.

Definition no_url_params : PipelineParams :=
  {| GitURL := ""; TestFlags := None; BuildFlags := None;
     GenerateFlags := None |}.

(** A worker on which every handle resolves, at once, to what the
    activity returns on [host]. *)
Definition direct_worker (host : Host)
           (json_Unmarshal : string -> list GoTestCLIOutput + error)
  : PipelineActivity :=
  {| GitClone := fun p => snd (Activities.GitClone host p);
     GoFmt := fun p => snd (Activities.GoFmt host p);
     GoTest := fun p => snd (Activities.GoTest host json_Unmarshal p);
     DeleteWorkdir := fun p =>
       match snd (Activities.DeleteWorkdir host p) with
       | inl _ => None
       | inr err => Some err
       end;
     GoModTidy := fun p => snd (Activities.GoModTidy host p);
     GoBuild := fun p => snd (Activities.GoBuild host p);
     GoGenerate := fun p => snd (Activities.GoGenerate host p);
     GolangCILint := fun p => snd (Activities.GolangCILint host p);
     GoDeploy := fun p => snd (Activities.GoDeploy host p) |}.

(** How often a command closes the client, and submits a workflow. *)
Definition is_Close (c : ClientCall) : bool :=
  match c with Client_Close => true | _ => false end.

Definition is_ExecuteWorkflow (c : ClientCall) : bool :=
  match c with Client_ExecuteWorkflow _ _ _ _ => true | _ => false end.

(** A process whose Temporal server cannot be reached. *)
Definition offline_process : Process :=
  {| envconfig_workflow := inl {| Input := "simple.yaml" |};
     envconfig_temporal :=
       inl {| HostPort := "localhost:6433"; Namespace := "default";
              Queue := "pipeline" |};
     envconfig_worker := None;
     tclient_DialContext := fun _ _ => Some (errors_New "connection refused");
     os_ReadFile := fun _ => inl "git_url: ...";
     yaml_Unmarshal := fun _ => inl test_params;
     slug_Make := fun s => s;
     strconv_Quote := fun s => s;
     client_ExecuteWorkflow := fun _ _ _ _ => None;
     workflowRun_Get := fun _ _ => None;
     worker_Run := None |}.

(** ** The selector fires every future it holds *)

Lemma first_ready_none (s : Selector) : first_ready s = None -> s = [].
Proof.
  destruct s as [|f rest]; [reflexivity|]. simpl.
  destruct (first_ready rest) as [[g rest']|]; [|discriminate].
  destruct (Nat.ltb (ready_at g) (ready_at f)); discriminate.
Qed.

Lemma first_ready_length (s : Selector) f rest :
  first_ready s = Some (f, rest) -> length s = S (length rest).
Proof.
  revert f rest. induction s as [|x s IH]; intros f rest; simpl; [discriminate|].
  destruct (first_ready s) as [[g rest']|] eqn:E.
  - specialize (IH _ _ eq_refl).
    destruct (Nat.ltb (ready_at g) (ready_at x)); intros [= <- <-]; simpl; congruence.
  - apply first_ready_none in E. subst s. intros [= <- <-]. reflexivity.
Qed.

(** As many [Select]s as there are pending futures never block, and leave
    the selector empty. *)
Lemma Select_times_all (s : Selector) (h : History) :
  Select_times (length s) s h
  = (Returned [], h ++ map FutureSelected (firing_order (length s) s)).
Proof.
  remember (length s) as n eqn:En. revert s h En.
  induction n as [|n IH]; intros s h En.
  - destruct s; [|discriminate]. simpl. now rewrite app_nil_r.
  - simpl. unfold Select, bind.
    destruct (first_ready s) as [[f rest]|] eqn:E.
    + apply first_ready_length in E. simpl. unfold record, ret. simpl.
      rewrite IH by congruence. now rewrite <- app_assoc.
    + apply first_ready_none in E. subst s. discriminate.
Qed.

(** ** The two shapes of a run *)

Lemma bind_ExecuteActivity pa latency {B} (c : ActivityCall)
      (k : Future -> Workflow B) (h : History) :
  bind (ExecuteActivity pa latency c) k h
  = k (future_of pa latency c) (h ++ [ActivityScheduled c]).
Proof. reflexivity. Qed.

Lemma run_clone_failed pa latency params err :
  GitClone pa {| GitCloneParams_Metadata := zero_Metadata;
                 Remote := GitURL params |} = inr err ->
  run pa latency params
  = (Failed (Errorf_w "GitClone activity: " err),
     [ActivityScheduled (clone_call params)]).
Proof.
  intros E. unfold run, PipelineWorkflow.
  rewrite bind_ExecuteActivity. unfold Get, future_of. simpl. rewrite E. reflexivity.
Qed.

Lemma run_clone_ok pa latency params rClone :
  GitClone pa {| GitCloneParams_Metadata := zero_Metadata;
                 Remote := GitURL params |} = inl rClone ->
  let metadata := GitCloneResult_Metadata rClone in
  let result := classified pa latency params metadata in
  let h := fanin_history pa latency params metadata in
  run pa latency params
  = if hasErrors result then cleaned_up pa metadata result h
    else
      match GoDeploy pa {| GoDeployParams_Metadata := metadata |} with
      | inr err =>
          (Failed (Errorf_w "deploy activity: " err),
           h ++ [ActivityScheduled (deploy_call metadata)])
      | inl rDeploy =>
          cleaned_up pa metadata
            {| Failures := Failures result ++ deploy_entry pa metadata |}
            (h ++ [ActivityScheduled (deploy_call metadata)])
      end.
Proof.
  intros E metadata result h. unfold run, PipelineWorkflow.
  rewrite bind_ExecuteActivity. unfold Get at 1. unfold future_of at 1.
  cbn [resolved resolution]. rewrite E. cbn [as_GitCloneResult].
  fold metadata.
  rewrite !bind_ExecuteActivity.
  cbn [fold_left snd AddFuture NewSelector app length].
  set (s := [future_of pa latency _; _; _; _; _; _]).
  change 6 with (length s).
  unfold bind at 1. rewrite Select_times_all.
  change (processActivity _ ("GolangCILint", _)) with result.
  destruct (hasErrors result); cbn [negb].
  - unfold bind at 1. unfold ret at 1. rewrite bind_ExecuteActivity.
    unfold Get, future_of, cleaned_up. cbn [resolved resolution].
    destruct (DeleteWorkdir pa _); reflexivity.
  - unfold bind at 1. rewrite bind_ExecuteActivity.
    unfold Get at 1. unfold future_of at 1. cbn [resolved resolution].
    unfold deploy_entry.
    destruct (GoDeploy pa _) as [rDeploy|err]; [|reflexivity].
    cbn [as_GoDeployResult].
    destruct (GoDeployResult_Error rDeploy); unfold ret at 1;
      rewrite bind_ExecuteActivity;
      unfold Get, future_of, cleaned_up; cbn [resolved resolution];
      destruct (DeleteWorkdir pa _); try reflexivity.
    all: destruct result as [fs]; cbn [Failures]; now rewrite app_nil_r.
Qed.

(** ** The classification loop *)

Lemma processActivity_Failures (result : PipelineResult) activity :
  Failures (processActivity result activity)
  = Failures result ++ entries_of activity.
Proof.
  destruct activity as [name future]. unfold entries_of, processActivity.
  repeat match goal with
         | |- context [String.eqb ?n ?s] => destruct (String.eqb n s)
         end.
  all: try (cbn [Failures]; now rewrite app_nil_r).
  all: match goal with
       | |- context [Get ?d ?z ?f] => destruct (Get d z f) as [r [err|]]
       end; cbn [is_nil andb]; try reflexivity.
  all: match goal with
       | |- context [Nat.ltb 0 ?n] => destruct (Nat.ltb 0 n)
       end; cbn [Failures append_failure app]; try reflexivity.
  all: now rewrite app_nil_r.
Qed.

Lemma fold_processActivity_Failures activities (result : PipelineResult) :
  Failures (fold_left processActivity activities result)
  = Failures result ++ flat_map entries_of activities.
Proof.
  revert result. induction activities as [|a rest IH]; intros result; simpl.
  - now rewrite app_nil_r.
  - rewrite IH, processActivity_Failures. now rewrite app_assoc.
Qed.

Lemma classified_Failures pa latency params metadata :
  Failures (classified pa latency params metadata)
  = flat_map entries_of (fanout_activities pa latency params metadata).
Proof. unfold classified. now rewrite fold_processActivity_Failures. Qed.

(** A fan-out step adds one entry when it failed and none when it passed. *)
Lemma entries_of_fanout pa latency params metadata activity :
  In activity (fanout_activities pa latency params metadata) ->
  entries_of activity
  = if step_failed (resolved (snd activity))
    then [{| Activity := fst activity;
             Details := failure_details (resolved (snd activity)) |}]
    else [].
Proof.
  intros H. unfold fanout_activities in H. simpl in H.
  repeat destruct H as [H|H]; try contradiction; subst activity;
    unfold entries_of, processActivity, Get, future_of;
    cbn [String.eqb Ascii.eqb Bool.eqb fst snd resolved resolution].
  - destruct (GoTest pa _) as [r|e]; cbn; [destruct (len (FailedTests r))|]; reflexivity.
  - destruct (GoFmt pa _) as [r|e]; cbn;
      [destruct (len (GoFmtResult_FailedFiles r))|]; reflexivity.
  - destruct (GoModTidy pa _) as [r|e]; cbn;
      [destruct (len (GoModTidyResult_FailedFiles r))|]; reflexivity.
  - destruct (GoBuild pa _) as [r|e]; cbn;
      [destruct (len (GoBuildResult_FailedFiles r))|]; reflexivity.
  - destruct (GoGenerate pa _) as [r|e]; cbn;
      [destruct (len (GoGenerateResult_FailedFiles r))|]; reflexivity.
  - destruct (GolangCILint pa _) as [r|e]; cbn;
      [destruct (len (Issues r))|]; reflexivity.
Qed.

(** ** The gate *)

Lemma hasErrors_range_false_iff (failures : list PipelineFailure) :
  hasErrors_range failures = false
  <-> filter (fun failure => negb (isEmptyOrNil (Details failure))) failures = [].
Proof.
  induction failures as [|f rest IH]; simpl; [tauto|].
  destruct (negb (isEmptyOrNil (Details f))); [split; discriminate|exact IH].
Qed.

Lemma hasErrors_range_true_iff (failures : list PipelineFailure) :
  hasErrors_range failures = true
  <-> exists failure, In failure failures /\ isEmptyOrNil (Details failure) = false.
Proof.
  induction failures as [|f rest IH]; simpl.
  - split; [discriminate|intros [x [[] _]]].
  - destruct (isEmptyOrNil (Details f)) eqn:E; simpl.
    + rewrite IH. split.
      * intros [x [Hx Hd]]. exists x. auto.
      * intros [x [[->|Hx] Hd]]; [congruence|exists x; auto].
    + split; [intros _; exists f; auto|reflexivity].
Qed.

(** On the payloads the fan-out records, a string or a slice, the code's
    test and the specification's notion of an empty payload agree. *)
Lemma isEmptyOrNil_failure_details (o : Payload + error) :
  isEmptyOrNil (failure_details o) = no_real_failure (failure_details o).
Proof.
  destruct o as [[]|err]; simpl; try reflexivity;
    match goal with
    | |- context [option_map _ ?xs] => destruct xs; simpl
    end; try reflexivity; apply orb_false_r.
Qed.

Lemma classified_details pa latency params metadata failure :
  In failure (Failures (classified pa latency params metadata)) ->
  exists activity,
    In activity (fanout_activities pa latency params metadata)
    /\ step_failed (resolved (snd activity)) = true
    /\ failure = {| Activity := fst activity;
                    Details := failure_details (resolved (snd activity)) |}.
Proof.
  rewrite classified_Failures, in_flat_map. intros [activity [Ha Hf]].
  exists activity. rewrite (entries_of_fanout _ _ _ _ _ Ha) in Hf.
  destruct (step_failed (resolved (snd activity))); simpl in Hf; [|contradiction].
  destruct Hf as [<-|[]]. auto.
Qed.


Lemma classified_gate pa latency params metadata :
  hasErrors (classified pa latency params metadata) = false
  <-> real_failures (Failures (classified pa latency params metadata)) = [].
Proof.
  unfold hasErrors, real_failures. rewrite hasErrors_range_false_iff.
  assert (H : forall failure,
             In failure (Failures (classified pa latency params metadata)) ->
             isEmptyOrNil (Details failure) = no_real_failure (Details failure)).
  { intros failure Hin. apply classified_details in Hin.
    destruct Hin as [activity [_ [_ ->]]]. apply isEmptyOrNil_failure_details. }
  revert H. generalize (Failures (classified pa latency params metadata)).
  induction l as [|f rest IH]; intros H; simpl; [tauto|].
  rewrite (H f (or_introl eq_refl)).
  destruct (negb (no_real_failure (Details f))); [split; discriminate|].
  apply IH. intros x Hx. apply H. now right.
Qed.

(** ** Counting invocations in a history *)

Lemma filter_FutureSelected (p : Event -> bool) calls :
  (forall c, p (FutureSelected c) = false) ->
  filter p (map FutureSelected calls) = [].
Proof.
  intros Hp. induction calls as [|c rest IH]; simpl; [reflexivity|].
  now rewrite Hp.
Qed.

Lemma deploy_invocations_app h1 h2 :
  deploy_invocations (h1 ++ h2) = deploy_invocations h1 + deploy_invocations h2.
Proof. unfold deploy_invocations. now rewrite filter_app, length_app. Qed.

Lemma cleanup_invocations_app h1 h2 :
  cleanup_invocations (h1 ++ h2) = cleanup_invocations h1 + cleanup_invocations h2.
Proof. unfold cleanup_invocations. now rewrite filter_app, length_app. Qed.

Lemma fanin_history_deploy pa latency params metadata :
  deploy_invocations (fanin_history pa latency params metadata) = 0.
Proof.
  unfold deploy_invocations, fanin_history. cbn [filter is_deploy clone_call].
  cbn [fanout_calls map app filter is_deploy].
  now rewrite filter_FutureSelected.
Qed.

Lemma fanin_history_cleanup pa latency params metadata :
  cleanup_invocations (fanin_history pa latency params metadata) = 0.
Proof.
  unfold cleanup_invocations, fanin_history. cbn [filter is_cleanup clone_call].
  cbn [fanout_calls map app filter is_cleanup].
  now rewrite filter_FutureSelected.
Qed.

Lemma snd_cleaned_up pa metadata result h :
  snd (cleaned_up pa metadata result h)
  = h ++ [ActivityScheduled (cleanup_call metadata)].
Proof. unfold cleaned_up. destruct (DeleteWorkdir pa _); reflexivity. Qed.

(** The history of a run whose clone succeeded. *)
Lemma history_clone_ok pa latency params rClone :
  GitClone pa {| GitCloneParams_Metadata := zero_Metadata;
                 Remote := GitURL params |} = inl rClone ->
  let metadata := GitCloneResult_Metadata rClone in
  snd (run pa latency params)
  = fanin_history pa latency params metadata
    ++ (if hasErrors (classified pa latency params metadata) then []
        else [ActivityScheduled (deploy_call metadata)])
    ++ (if hasErrors (classified pa latency params metadata) then
          [ActivityScheduled (cleanup_call metadata)]
        else
          match GoDeploy pa {| GoDeployParams_Metadata := metadata |} with
          | inl _ => [ActivityScheduled (cleanup_call metadata)]
          | inr _ => []
          end).
Proof.
  intros E metadata. rewrite (run_clone_ok _ _ _ _ E). fold metadata.
  destruct (hasErrors (classified pa latency params metadata)).
  - now rewrite snd_cleaned_up.
  - destruct (GoDeploy pa _) as [rDeploy|err].
    + rewrite snd_cleaned_up. now rewrite <- app_assoc.
    + cbn [snd app]. reflexivity.
Qed.

(** Deploy runs once when the gate is open and not at all when it is
    shut. *)
Lemma deploy_invocations_clone_ok pa latency params rClone :
  GitClone pa {| GitCloneParams_Metadata := zero_Metadata;
                 Remote := GitURL params |} = inl rClone ->
  deploy_invocations (snd (run pa latency params))
  = if hasErrors (classified pa latency params (GitCloneResult_Metadata rClone))
    then 0 else 1.
Proof.
  intros E. rewrite (history_clone_ok _ _ _ _ E).
  rewrite !deploy_invocations_app, fanin_history_deploy.
  destruct (hasErrors _); [reflexivity|].
  destruct (GoDeploy pa _); reflexivity.
Qed.

(** ** Clone fails *)

(** C7: when the handle of Clone resolves with an error, the workflow
    returns that error, wrapped, and no report; the history holds the
    scheduling of Clone and nothing else, so that no fan-out step and no
    cleanup was invoked. *)
Theorem clone_failure_is_fatal pa latency params err :
  GitClone pa {| GitCloneParams_Metadata := zero_Metadata;
                 Remote := GitURL params |} = inr err ->
  fst (run pa latency params) = Failed (Errorf_w "GitClone activity: " err)
  /\ snd (run pa latency params) = [ActivityScheduled (clone_call params)]
  /\ fanout_invocations (snd (run pa latency params)) = 0
  /\ cleanup_invocations (snd (run pa latency params)) = 0.
Proof.
  intros E. rewrite (run_clone_failed _ _ _ _ E). repeat split.
Qed.

Lemma clone_failure_is_fatal_witness :
  GitClone clone_unreachable
           {| GitCloneParams_Metadata := zero_Metadata;
              Remote := GitURL test_params |}
  = inr (errors_New "repository not found")
  /\ (fst (run clone_unreachable lint_first test_params)
      = Failed (Errorf_w "GitClone activity: " (errors_New "repository not found"))
      /\ snd (run clone_unreachable lint_first test_params)
         = [ActivityScheduled (clone_call test_params)]
      /\ fanout_invocations (snd (run clone_unreachable lint_first test_params)) = 0
      /\ cleanup_invocations (snd (run clone_unreachable lint_first test_params)) = 0).
Proof.
  split; [reflexivity|].
  apply (clone_failure_is_fatal clone_unreachable lint_first test_params).
  reflexivity.
Defined.

(** ** The gating decision *)

(** C2: in a run that reaches the gate (Clone succeeded), Deploy is
    invoked, once, exactly when the failures recorded by the fan-out,
    filtered to those whose details are not empty (nil, an empty string
    and an empty collection being empty), leave nothing; otherwise it is
    not invoked. *)
Theorem deploy_iff_no_real_failure pa latency params rClone :
  GitClone pa {| GitCloneParams_Metadata := zero_Metadata;
                 Remote := GitURL params |} = inl rClone ->
  let recorded :=
    Failures (classified pa latency params (GitCloneResult_Metadata rClone)) in
  (deploy_invocations (snd (run pa latency params)) = 1
   <-> real_failures recorded = [])
  /\ (deploy_invocations (snd (run pa latency params)) = 0
      <-> real_failures recorded <> []).
Proof.
  intros E recorded. subst recorded.
  rewrite (deploy_invocations_clone_ok _ _ _ _ E).
  rewrite <- classified_gate.
  destruct (hasErrors _); split; split; congruence.
Qed.

Lemma deploy_iff_no_real_failure_witness :
  GitClone mockActivitiesWithFailures
           {| GitCloneParams_Metadata := zero_Metadata;
              Remote := GitURL test_params |}
  = inl {| GitCloneResult_Metadata := test_workdir |}
  /\ ((deploy_invocations (snd (run mockActivitiesWithFailures lint_first test_params)) = 1
       <-> real_failures
             (Failures (classified mockActivitiesWithFailures lint_first
                                   test_params test_workdir)) = [])
      /\ (deploy_invocations (snd (run mockActivitiesWithFailures lint_first test_params)) = 0
          <-> real_failures
                (Failures (classified mockActivitiesWithFailures lint_first
                                      test_params test_workdir)) <> [])).
Proof.
  split; [reflexivity|].
  apply (deploy_iff_no_real_failure mockActivitiesWithFailures lint_first
           test_params {| GitCloneResult_Metadata := test_workdir |}).
  reflexivity.
Defined.

(** The entry of a failed fan-out step is in the classified result. *)
Lemma failed_step_recorded pa latency params metadata activity :
  In activity (fanout_activities pa latency params metadata) ->
  step_failed (resolved (snd activity)) = true ->
  In {| Activity := fst activity;
        Details := failure_details (resolved (snd activity)) |}
     (Failures (classified pa latency params metadata)).
Proof.
  intros Hin Hfailed. rewrite classified_Failures, in_flat_map.
  exists activity. split; [exact Hin|].
  rewrite (entries_of_fanout _ _ _ _ _ Hin), Hfailed. now left.
Qed.

(** C5: in a run in which some fan-out step reports a failure whose
    details are not empty, Deploy is not invoked. *)
Theorem real_failure_blocks_deploy pa latency params rClone activity :
  GitClone pa {| GitCloneParams_Metadata := zero_Metadata;
                 Remote := GitURL params |} = inl rClone ->
  In activity (fanout_activities pa latency params (GitCloneResult_Metadata rClone)) ->
  step_failed (resolved (snd activity)) = true ->
  no_real_failure (failure_details (resolved (snd activity))) = false ->
  deploy_invocations (snd (run pa latency params)) = 0.
Proof.
  intros E Hin Hfailed Hreal.
  rewrite (deploy_invocations_clone_ok _ _ _ _ E).
  assert (H : hasErrors (classified pa latency params (GitCloneResult_Metadata rClone)) = true).
  { apply hasErrors_range_true_iff. eexists. split.
    - apply (failed_step_recorded _ _ _ _ _ Hin Hfailed).
    - cbn [Details]. now rewrite isEmptyOrNil_failure_details. }
  now rewrite H.
Qed.

Lemma real_failure_blocks_deploy_witness :
  let activity :=
    ("GoBuild",
     future_of mockActivitiesWithFailures lint_first
       (Call_GoBuild {| GoBuildParams_Metadata := test_workdir;
                        GoBuildParams_Flags := BuildFlags test_params |})) in
  GitClone mockActivitiesWithFailures
           {| GitCloneParams_Metadata := zero_Metadata;
              Remote := GitURL test_params |}
  = inl {| GitCloneResult_Metadata := test_workdir |}
  /\ In activity
        (fanout_activities mockActivitiesWithFailures lint_first test_params
                           test_workdir)
  /\ step_failed (resolved (snd activity)) = true
  /\ no_real_failure (failure_details (resolved (snd activity))) = false
  /\ deploy_invocations (snd (run mockActivitiesWithFailures lint_first test_params)) = 0.
Proof.
  intros activity.
  assert (Hin : In activity
                   (fanout_activities mockActivitiesWithFailures lint_first
                                      test_params test_workdir))
    by (do 3 right; left; reflexivity).
  split; [reflexivity|]. split; [exact Hin|].
  split; [reflexivity|]. split; [reflexivity|].
  apply (real_failure_blocks_deploy mockActivitiesWithFailures lint_first
           test_params {| GitCloneResult_Metadata := test_workdir |} activity
           eq_refl Hin eq_refl eq_refl).
Defined.

(** ** Every step passes *)

Lemma all_pass_classified pa latency params metadata :
  (forall activity,
      In activity (fanout_activities pa latency params metadata) ->
      step_failed (resolved (snd activity)) = false) ->
  classified pa latency params metadata = {| Failures := [] |}.
Proof.
  intros Hpass.
  assert (H : Failures (classified pa latency params metadata) = []).
  { rewrite classified_Failures.
    assert (Hall : forall activity,
               In activity (fanout_activities pa latency params metadata) ->
               entries_of activity = []).
    { intros activity Hin. rewrite (entries_of_fanout _ _ _ _ _ Hin).
      now rewrite (Hpass _ Hin). }
    revert Hall. generalize (fanout_activities pa latency params metadata).
    induction l as [|a rest IH]; intros Hall; simpl; [reflexivity|].
    rewrite (Hall a (or_introl eq_refl)). apply IH.
    intros x Hx. apply Hall. now right. }
  destruct (classified pa latency params metadata) as [fs]. simpl in H.
  now subst fs.
Qed.

(** C4: when Clone succeeds and all six fan-out steps pass, Deploy is
    invoked exactly once and a report the run returns is empty; and the
    run does return the empty report when the handles of Deploy and of the
    cleanup resolve without error.  The handle of Deploy resolves to what
    [Get] can deliver, a result without error. *)
Theorem all_pass_deploys_once pa latency params rClone :
  GitClone pa {| GitCloneParams_Metadata := zero_Metadata;
                 Remote := GitURL params |} = inl rClone ->
  let metadata := GitCloneResult_Metadata rClone in
  Deploy_result_decodes pa ->
  (forall activity,
      In activity (fanout_activities pa latency params metadata) ->
      step_failed (resolved (snd activity)) = false) ->
  deploy_invocations (snd (run pa latency params)) = 1
  /\ (forall result,
         fst (run pa latency params) = Returned result -> Failures result = [])
  /\ (forall rDeploy,
         GoDeploy pa {| GoDeployParams_Metadata := metadata |} = inl rDeploy ->
         DeleteWorkdir pa {| DeleteWorkdirParams_Metadata := metadata |} = None ->
         fst (run pa latency params) = Returned {| Failures := [] |}).
Proof.
  intros E metadata Hdecodes Hpass.
  pose proof (all_pass_classified _ _ _ _ Hpass) as Hc.
  split; [|split].
  - rewrite (deploy_invocations_clone_ok _ _ _ _ E). fold metadata.
    now rewrite Hc.
  - intros result. rewrite (run_clone_ok _ _ _ _ E). fold metadata.
    rewrite Hc. cbn [hasErrors hasErrors_range Failures app].
    unfold deploy_entry, cleaned_up.
    destruct (GoDeploy pa _) as [rDeploy|err] eqn:Ed; [|discriminate].
    rewrite (Hdecodes _ _ Ed).
    destruct (DeleteWorkdir pa _); [discriminate|].
    cbn [fst]. now intros [= <-].
  - intros rDeploy Hd Hclean. rewrite (run_clone_ok _ _ _ _ E). fold metadata.
    rewrite Hc. cbn [hasErrors hasErrors_range Failures app].
    unfold deploy_entry, cleaned_up.
    rewrite Hd, (Hdecodes _ _ Hd), Hclean. reflexivity.
Qed.

Lemma all_pass_deploys_once_witness :
  GitClone mockAllActivitiesSuccess
           {| GitCloneParams_Metadata := zero_Metadata;
              Remote := GitURL test_params |}
  = inl {| GitCloneResult_Metadata := test_workdir |}
  /\ Deploy_result_decodes mockAllActivitiesSuccess
  /\ (forall activity,
         In activity (fanout_activities mockAllActivitiesSuccess lint_first
                                        test_params test_workdir) ->
         step_failed (resolved (snd activity)) = false)
  /\ deploy_invocations (snd (run mockAllActivitiesSuccess lint_first test_params)) = 1
  /\ fst (run mockAllActivitiesSuccess lint_first test_params)
     = Returned {| Failures := [] |}.
Proof.
  assert (Hdecodes : Deploy_result_decodes mockAllActivitiesSuccess).
  { intros p rDeploy [= <-]. reflexivity. }
  assert (Hpass : forall activity,
             In activity (fanout_activities mockAllActivitiesSuccess lint_first
                                            test_params test_workdir) ->
             step_failed (resolved (snd activity)) = false).
  { intros activity H. simpl in H.
    repeat destruct H as [H|H]; try contradiction; subst activity; reflexivity. }
  split; [reflexivity|]. split; [exact Hdecodes|]. split; [exact Hpass|].
  destruct (all_pass_deploys_once mockAllActivitiesSuccess lint_first test_params
              {| GitCloneResult_Metadata := test_workdir |} eq_refl Hdecodes Hpass)
    as [Honce [_ Hempty]].
  split; [exact Honce|].
  apply (Hempty zero_GoDeployResult); reflexivity.
Defined.

(** ** Cleanup *)

(** C6, as the code has it: when Clone succeeds and Deploy either is not
    invoked or has a handle that resolves, the cleanup is invoked, once,
    as the last event of the run: after the fan-in and after the
    scheduling of Deploy when the gate let it through, whatever the
    report holds. *)
Theorem cleanup_after_deploy_decision pa latency params rClone :
  GitClone pa {| GitCloneParams_Metadata := zero_Metadata;
                 Remote := GitURL params |} = inl rClone ->
  let metadata := GitCloneResult_Metadata rClone in
  hasErrors (classified pa latency params metadata) = true
  \/ (exists rDeploy,
         GoDeploy pa {| GoDeployParams_Metadata := metadata |} = inl rDeploy) ->
  snd (run pa latency params)
  = fanin_history pa latency params metadata
    ++ (if hasErrors (classified pa latency params metadata) then []
        else [ActivityScheduled (deploy_call metadata)])
    ++ [ActivityScheduled (cleanup_call metadata)]
  /\ cleanup_invocations (snd (run pa latency params)) = 1.
Proof.
  intros E metadata H.
  assert (Hh : snd (run pa latency params)
               = fanin_history pa latency params metadata
                 ++ (if hasErrors (classified pa latency params metadata) then []
                     else [ActivityScheduled (deploy_call metadata)])
                 ++ [ActivityScheduled (cleanup_call metadata)]).
  { rewrite (history_clone_ok _ _ _ _ E). fold metadata.
    destruct (hasErrors (classified pa latency params metadata)); [reflexivity|].
    destruct H as [H|[rDeploy H]]; [discriminate|]. now rewrite H. }
  split; [exact Hh|]. rewrite Hh.
  rewrite !cleanup_invocations_app, fanin_history_cleanup.
  destruct (hasErrors _); reflexivity.
Qed.

Lemma cleanup_after_deploy_decision_witness :
  GitClone mockActivitiesWithFailures
           {| GitCloneParams_Metadata := zero_Metadata;
              Remote := GitURL test_params |}
  = inl {| GitCloneResult_Metadata := test_workdir |}
  /\ hasErrors (classified mockActivitiesWithFailures lint_first test_params
                           test_workdir) = true
  /\ cleanup_invocations
       (snd (run mockActivitiesWithFailures lint_first test_params)) = 1.
Proof.
  split; [reflexivity|]. split; [reflexivity|].
  apply (cleanup_after_deploy_decision mockActivitiesWithFailures lint_first
           test_params {| GitCloneResult_Metadata := test_workdir |} eq_refl).
  left. reflexivity.
Defined.

(** C6 fails as stated: Clone succeeds, every step passes, the handle of
    Deploy resolves with an error, and the run ends with that error
    without invoking the cleanup. *)
Lemma deploy_error_skips_cleanup :
  GitClone deploy_unreachable
           {| GitCloneParams_Metadata := zero_Metadata;
              Remote := GitURL test_params |}
  = inl {| GitCloneResult_Metadata := test_workdir |}
  /\ fst (run deploy_unreachable in_issue_order test_params)
     = Failed (Errorf_w "deploy activity: " (errors_New "context canceled"))
  /\ deploy_invocations (snd (run deploy_unreachable in_issue_order test_params)) = 1
  /\ cleanup_invocations (snd (run deploy_unreachable in_issue_order test_params)) = 0.
Proof. repeat split. Qed.

(** ** The report does not depend on completion order *)

(** The loop reads a future only through what it resolved to. *)
Lemma processActivity_resolved result name (f f' : Future) :
  resolved f = resolved f' ->
  processActivity result (name, f) = processActivity result (name, f').
Proof. intros H. unfold processActivity, Get. now rewrite H. Qed.

Lemma fold_processActivity_latency pa l1 l2 names calls result :
  fold_left processActivity
            (combine names (map (future_of pa l1) calls)) result
  = fold_left processActivity
              (combine names (map (future_of pa l2) calls)) result.
Proof.
  revert calls result. induction names as [|name names IH];
    intros [|c calls] result; cbn [combine map fold_left]; try reflexivity.
  rewrite (processActivity_resolved result name (future_of pa l1 c)
                                    (future_of pa l2 c) eq_refl).
  apply IH.
Qed.

Lemma classified_latency pa l1 l2 params metadata :
  classified pa l1 params metadata = classified pa l2 params metadata.
Proof. apply fold_processActivity_latency. Qed.

Lemma fst_cleaned_up pa metadata result h h' :
  fst (cleaned_up pa metadata result h) = fst (cleaned_up pa metadata result h').
Proof. unfold cleaned_up. destruct (DeleteWorkdir pa _); reflexivity. Qed.

(** Two runs that differ only in when the handles become ready end the
    same way. *)
Lemma outcome_latency pa l1 l2 params :
  fst (run pa l1 params) = fst (run pa l2 params).
Proof.
  destruct (GitClone pa {| GitCloneParams_Metadata := zero_Metadata;
                           Remote := GitURL params |}) as [rClone|err] eqn:E.
  - rewrite !(run_clone_ok _ _ _ _ E).
    rewrite (classified_latency pa l1 l2).
    destruct (hasErrors _); [apply fst_cleaned_up|].
    destruct (GoDeploy pa _); [apply fst_cleaned_up|reflexivity].
  - now rewrite !(run_clone_failed _ _ _ _ E).
Qed.

(** The report a run returns: the classified failures, then the entry of
    Deploy if the gate let Deploy run. *)
Lemma returned_report pa latency params result h :
  run pa latency params = (Returned result, h) ->
  exists rClone,
    GitClone pa {| GitCloneParams_Metadata := zero_Metadata;
                   Remote := GitURL params |} = inl rClone
    /\ Failures result
       = Failures (classified pa latency params (GitCloneResult_Metadata rClone))
         ++ (if hasErrors (classified pa latency params
                                      (GitCloneResult_Metadata rClone))
             then [] else deploy_entry pa (GitCloneResult_Metadata rClone)).
Proof.
  destruct (GitClone pa {| GitCloneParams_Metadata := zero_Metadata;
                           Remote := GitURL params |}) as [rClone|err] eqn:E.
  - rewrite (run_clone_ok _ _ _ _ E). intros H. exists rClone. split; [reflexivity|].
    revert H. unfold cleaned_up.
    destruct (hasErrors _).
    + destruct (DeleteWorkdir pa _); [discriminate|]. intros [= <- _].
      now rewrite app_nil_r.
    + destruct (GoDeploy pa _); [|discriminate].
      destruct (DeleteWorkdir pa _); [discriminate|]. now intros [= <- _].
  - rewrite (run_clone_failed _ _ _ _ E). discriminate.
Qed.

(** The names of the classified failures are the failed steps, in issue
    order. *)
Lemma classified_names pa latency params metadata :
  map Activity (Failures (classified pa latency params metadata))
  = failed_steps pa params metadata.
Proof.
  rewrite classified_Failures. unfold failed_steps.
  pose proof (entries_of_fanout pa latency params metadata) as H.
  revert H. unfold fanout_activities.
  generalize (fanout_calls params metadata). generalize issue_order.
  induction l as [|name names IH]; intros [|c calls] H;
    cbn [combine map flat_map filter]; try reflexivity.
  rewrite map_app, (H _ (or_introl eq_refl)).
  rewrite IH by (intros x Hx; apply H; now right).
  cbn [fst snd resolved future_of].
  destruct (step_failed (resolution pa c)); reflexivity.
Qed.

(** When the handle of Deploy resolves to what [Get] can deliver, Deploy adds
    no entry. *)
Lemma deploy_entry_nil pa metadata :
  Deploy_result_decodes pa -> deploy_entry pa metadata = [].
Proof.
  intros Hdecodes. unfold deploy_entry.
  destruct (GoDeploy pa _) as [rDeploy|err] eqn:Ed; [|reflexivity].
  now rewrite (Hdecodes _ _ Ed).
Qed.

(** C1: for every outcome of the six fan-out steps, the entries of the
    report a run returns are the fan-out steps that failed, in the fixed
    issue order (GoTest, GoFmt, GoModTidy, GoBuild, GoGenerate,
    GolangCILint): the sequence of their names is that order restricted to
    the failed steps; and a run over the same outcomes in which the
    handles resolve in any other order returns the same report.  The
    handle of Deploy resolves to what [Get] can deliver, a result without
    error. *)
Theorem report_in_issue_order pa latency params result h :
  Deploy_result_decodes pa ->
  run pa latency params = (Returned result, h) ->
  exists rClone,
    GitClone pa {| GitCloneParams_Metadata := zero_Metadata;
                   Remote := GitURL params |} = inl rClone
    /\ map Activity (Failures result)
       = failed_steps pa params (GitCloneResult_Metadata rClone)
    /\ (forall latency', fst (run pa latency' params) = Returned result).
Proof.
  intros Hdecodes Hrun.
  destruct (returned_report _ _ _ _ _ Hrun) as [rClone [E Hf]].
  exists rClone. split; [exact E|]. split.
  - rewrite Hf, (deploy_entry_nil _ _ Hdecodes).
    destruct (hasErrors _); rewrite app_nil_r; apply classified_names.
  - intros latency'. rewrite (outcome_latency pa latency' latency), Hrun.
    reflexivity.
Qed.

Lemma report_in_issue_order_witness :
  Deploy_result_decodes mockActivitiesWithFailures
  /\ run mockActivitiesWithFailures lint_first test_params
     = (Returned (classified mockActivitiesWithFailures lint_first test_params
                             test_workdir),
        snd (run mockActivitiesWithFailures lint_first test_params))
  /\ failed_steps mockActivitiesWithFailures test_params test_workdir
     = ["GoTest"; "GoBuild"; "GoGenerate"]
  /\ exists rClone,
      GitClone mockActivitiesWithFailures
               {| GitCloneParams_Metadata := zero_Metadata;
                  Remote := GitURL test_params |} = inl rClone
      /\ map Activity
             (Failures (classified mockActivitiesWithFailures lint_first
                                   test_params test_workdir))
         = failed_steps mockActivitiesWithFailures test_params
                        (GitCloneResult_Metadata rClone)
      /\ fst (run mockActivitiesWithFailures in_issue_order test_params)
         = Returned (classified mockActivitiesWithFailures lint_first
                                test_params test_workdir).
Proof.
  assert (Hdecodes : Deploy_result_decodes mockActivitiesWithFailures).
  { intros p rDeploy [= <-]. reflexivity. }
  split; [exact Hdecodes|]. split; [reflexivity|]. split; [reflexivity|].
  destruct (report_in_issue_order mockActivitiesWithFailures lint_first
              test_params _ _ Hdecodes eq_refl) as [rClone [E [Hnames H]]].
  exists rClone. split; [exact E|]. split; [exact Hnames|apply H].
Defined.

(** ** Failures with empty details *)

Lemma fanout_names_unique pa latency params metadata a b :
  In a (fanout_activities pa latency params metadata) ->
  In b (fanout_activities pa latency params metadata) ->
  fst a = fst b -> a = b.
Proof.
  unfold fanout_activities. simpl. intros Ha Hb.
  repeat destruct Ha as [Ha|Ha]; try contradiction; subst a;
    repeat destruct Hb as [Hb|Hb]; try contradiction; subst b;
    cbn [fst]; intros H; try reflexivity; discriminate H.
Qed.

Lemma fanout_name_not_Deploy pa latency params metadata a :
  In a (fanout_activities pa latency params metadata) -> fst a <> "Deploy".
Proof.
  unfold fanout_activities. simpl. intros Ha.
  repeat destruct Ha as [Ha|Ha]; try contradiction; subst a; discriminate.
Qed.

Lemma deploy_entry_Activity pa metadata failure :
  In failure (deploy_entry pa metadata) -> Activity failure = "Deploy".
Proof.
  unfold deploy_entry.
  destruct (GoDeploy pa _) as [rDeploy|err]; [|intros []].
  destruct (GoDeployResult_Error rDeploy); [|intros []].
  intros [<-|[]]. reflexivity.
Qed.


(** A step that passed has no entry among the classified failures. *)
Lemma passed_step_not_recorded pa latency params metadata activity :
  In activity (fanout_activities pa latency params metadata) ->
  step_failed (resolved (snd activity)) = false ->
  ~ In (fst activity)
       (map Activity (Failures (classified pa latency params metadata))).
Proof.
  intros Hin Hpassed Hname. apply in_map_iff in Hname.
  destruct Hname as [failure [Hact Hf]].
  apply classified_details in Hf. destruct Hf as [other [Hother [Hfailed ->]]].
  cbn [Activity] in Hact.
  rewrite (fanout_names_unique _ _ _ _ _ _ Hother Hin Hact) in Hfailed.
  congruence.
Qed.



(** ** A fan-out handle that fails *)

(** C8: when the handle of a fan-out step resolves with an error, the run
    goes on: the step gets an entry whose details are the error's message;
    every step is still classified on its own, the classified result
    being the entries of the six steps in issue order, with the entry of
    each sibling that failed; and the run reaches the gate, the event
    after the fan-in being the scheduling of Deploy or of the cleanup as
    [hasErrors] decides. *)
Theorem handle_error_is_recorded pa latency params rClone activity err :
  GitClone pa {| GitCloneParams_Metadata := zero_Metadata;
                 Remote := GitURL params |} = inl rClone ->
  let metadata := GitCloneResult_Metadata rClone in
  let result := classified pa latency params metadata in
  In activity (fanout_activities pa latency params metadata) ->
  resolved (snd activity) = inr err ->
  In {| Activity := fst activity; Details := any_of_string (Error err) |}
     (Failures result)
  /\ Failures result
     = flat_map entries_of (fanout_activities pa latency params metadata)
  /\ (forall sibling,
         In sibling (fanout_activities pa latency params metadata) ->
         entries_of sibling
         = if step_failed (resolved (snd sibling))
           then [{| Activity := fst sibling;
                    Details := failure_details (resolved (snd sibling)) |}]
           else [])
  /\ exists rest,
      snd (run pa latency params)
      = fanin_history pa latency params metadata
        ++ ActivityScheduled (if hasErrors result then cleanup_call metadata
                              else deploy_call metadata)
        :: rest.
Proof.
  intros E metadata result Hin Hr. split; [|split; [|split]].
  - pose proof (failed_step_recorded pa latency params metadata activity Hin) as H.
    rewrite Hr in H. now apply H.
  - apply classified_Failures.
  - intros sibling. apply entries_of_fanout.
  - rewrite (history_clone_ok _ _ _ _ E). fold metadata. fold result.
    destruct (hasErrors result).
    + exists []. reflexivity.
    + eexists. cbn [app]. reflexivity.
Qed.

Lemma handle_error_is_recorded_witness :
  GitClone tidy_times_out
           {| GitCloneParams_Metadata := zero_Metadata;
              Remote := GitURL test_params |}
  = inl {| GitCloneResult_Metadata := test_workdir |}
  /\ In ("GoModTidy",
         future_of tidy_times_out lint_first
           (Call_GoModTidy {| GoModTidyParams_Metadata := test_workdir |}))
        (fanout_activities tidy_times_out lint_first test_params test_workdir)
  /\ resolution tidy_times_out
                (Call_GoModTidy {| GoModTidyParams_Metadata := test_workdir |})
     = inr (errors_New "activity StartToClose timeout")
  /\ In {| Activity := "GoModTidy";
           Details := any_of_string "activity StartToClose timeout" |}
        (Failures (classified tidy_times_out lint_first test_params test_workdir)).
Proof.
  split; [reflexivity|]. split; [do 2 right; left; reflexivity|].
  split; [reflexivity|].
  apply (handle_error_is_recorded tidy_times_out lint_first test_params
           {| GitCloneResult_Metadata := test_workdir |}
           ("GoModTidy",
            future_of tidy_times_out lint_first
              (Call_GoModTidy {| GoModTidyParams_Metadata := test_workdir |}))
           (errors_New "activity StartToClose timeout")
           eq_refl (or_intror (or_intror (or_introl eq_refl))) eq_refl).
Defined.

(** ** One workdir per run *)

Lemma first_ready_In (s : Selector) f rest :
  first_ready s = Some (f, rest) -> In f s /\ incl rest s.
Proof.
  revert f rest. induction s as [|x s IH]; intros f rest; simpl; [discriminate|].
  destruct (first_ready s) as [[g rest']|] eqn:E.
  - destruct (IH _ _ eq_refl) as [Hg Hrest].
    destruct (Nat.ltb (ready_at g) (ready_at x)); intros [= <- <-].
    + split; [now right|]. intros y [<-|Hy]; [now left|right; now apply Hrest].
    + split; [now left|]. intros y Hy. now right.
  - intros [= <- <-]. split; [now left|intros y []].
Qed.

(** The selector fires only futures that were added to it. *)
Lemma firing_order_In n (s : Selector) c :
  In c (firing_order n s) -> In c (map call s).
Proof.
  revert s. induction n as [|n IH]; intros s; simpl; [intros []|].
  destruct (first_ready s) as [[f rest]|] eqn:E; [|intros []].
  destruct (first_ready_In _ _ _ E) as [Hf Hrest].
  intros [<-|Hc]; [now apply in_map|].
  apply IH in Hc. apply in_map_iff in Hc. destruct Hc as [g [<- Hg]].
  apply in_map. now apply Hrest.
Qed.

(** C9: when Clone succeeds, everything the run schedules after Clone
    carries the metadata Clone returned, unchanged: the six fan-out calls,
    which are all issued, Deploy whenever it is invoked, which is when the
    gate is open, and the cleanup whenever it is invoked, which is unless
    the handle of Deploy failed.  Clone itself is called with no workdir. *)
Theorem one_workdir_per_run pa latency params rClone :
  GitClone pa {| GitCloneParams_Metadata := zero_Metadata;
                 Remote := GitURL params |} = inl rClone ->
  let metadata := GitCloneResult_Metadata rClone in
  exists rest,
    snd (run pa latency params) = ActivityScheduled (clone_call params) :: rest
    /\ Forall (fun e => call_metadata (event_call e) = metadata) rest
    /\ (forall c, In c (fanout_calls params metadata) ->
                  In (ActivityScheduled c) rest)
    /\ fanout_invocations rest = 6
    /\ (forall p, In (ActivityScheduled (Call_GoDeploy p)) rest ->
                  GoDeployParams_Metadata p = metadata)
    /\ (forall p, In (ActivityScheduled (Call_DeleteWorkdir p)) rest ->
                  DeleteWorkdirParams_Metadata p = metadata)
    /\ (hasErrors (classified pa latency params metadata) = false ->
        In (ActivityScheduled (deploy_call metadata)) rest)
    /\ (hasErrors (classified pa latency params metadata) = true
        \/ (exists rDeploy,
               GoDeploy pa {| GoDeployParams_Metadata := metadata |} = inl rDeploy) ->
        In (ActivityScheduled (cleanup_call metadata)) rest).
Proof.
  intros E metadata. rewrite (history_clone_ok _ _ _ _ E). fold metadata.
  unfold fanin_history. rewrite <- app_comm_cons. eexists. split; [reflexivity|].
  set (tail := (if hasErrors _ then [] else _) ++ _).
  assert (Hmeta : Forall (fun e => call_metadata (event_call e) = metadata)
                    ((map ActivityScheduled (fanout_calls params metadata)
                      ++ map FutureSelected
                           (firing_order 6
                              (map (future_of pa latency)
                                   (fanout_calls params metadata))))
                     ++ tail)).
  { rewrite !Forall_app. split; [split|].
    - repeat constructor.
    - apply Forall_forall. intros e He. apply in_map_iff in He.
      destruct He as [c [<- Hc]]. apply firing_order_In in Hc.
      rewrite map_map in Hc. cbn [call future_of] in Hc. rewrite map_id in Hc.
      cbn [event_call]. simpl in Hc.
      repeat destruct Hc as [Hc|Hc]; try contradiction; subst c; reflexivity.
    - subst tail. destruct (hasErrors _); [|destruct (GoDeploy pa _)];
        repeat constructor. }
  split; [exact Hmeta|]. repeat split.
  - intros c Hc. apply in_or_app. left. apply in_or_app. left. now apply in_map.
  - unfold fanout_invocations. rewrite !filter_app, !length_app.
    rewrite filter_FutureSelected by reflexivity.
    subst tail. destruct (hasErrors _); [|destruct (GoDeploy pa _)]; reflexivity.
  - intros p Hp. rewrite Forall_forall in Hmeta. exact (Hmeta _ Hp).
  - intros p Hp. rewrite Forall_forall in Hmeta. exact (Hmeta _ Hp).
  - intros Hopen. apply in_or_app. right. subst tail. rewrite Hopen.
    now left.
  - intros Hreached. apply in_or_app. right. subst tail. apply in_or_app. right.
    destruct (hasErrors _); [now left|].
    destruct Hreached as [H|[rDeploy H]]; [discriminate|]. rewrite H. now left.
Qed.

Lemma one_workdir_per_run_witness :
  GitClone mockAllActivitiesSuccess
           {| GitCloneParams_Metadata := zero_Metadata;
              Remote := GitURL test_params |}
  = inl {| GitCloneResult_Metadata := test_workdir |}
  /\ exists rest,
      snd (run mockAllActivitiesSuccess lint_first test_params)
      = ActivityScheduled (clone_call test_params) :: rest
      /\ Forall (fun e => call_metadata (event_call e) = test_workdir) rest
      /\ fanout_invocations rest = 6.
Proof.
  split; [reflexivity|].
  destruct (one_workdir_per_run mockAllActivitiesSuccess lint_first test_params
              {| GitCloneResult_Metadata := test_workdir |} eq_refl)
    as [rest [Hh [Hmeta [_ [Hsix _]]]]].
  exists rest. split; [exact Hh|]. split; [exact Hmeta|exact Hsix].
Defined.

(** ** What the gate takes for empty *)

(** [isEmptyOrNil] holds of nil, of the empty string and of a slice that
    is nil or has no element, and of nothing else. *)
Lemma isEmptyOrNil_true_iff (value : any) :
  isEmptyOrNil value = true
  <-> value = None
      \/ value = Some (VString "")
      \/ exists elems, value = Some (VSlice elems) /\ len elems = 0.
Proof.
  split.
  - destruct value as [v|]; [|now left]. destruct v; simpl; try discriminate.
    + destruct s; [now right; left|discriminate].
    + intros H. right. right. exists elems. split; [reflexivity|].
      destruct elems as [[|x xs]|]; simpl in *; [reflexivity|discriminate|reflexivity].
  - intros [->|[->|[elems [-> H]]]]; try reflexivity.
    simpl. now rewrite H.
Qed.

(** C10: the gate's emptiness test answers true for nil, for a string of
    length zero and for a slice that is nil or of length zero, and for
    nothing else; on a payload of any other kind (a number, a boolean, a
    struct, a map, a pointer, an array) it answers false, so that a
    result holding a failure with such a payload has errors and the
    gate [if !hasErrors(result)] skips Deploy, even for an empty map,
    which is an empty payload in the specification's sense. *)
Theorem other_kinds_are_never_empty (value : any) :
  (isEmptyOrNil value = true
   <-> value = None
       \/ (exists s, value = Some (VString s) /\ String.length s = 0)
       \/ (exists elems, value = Some (VSlice elems) /\ len elems = 0))
  /\ (forall v,
         value = Some v ->
         reflect.Value_Kind v <> reflect.String ->
         reflect.Value_Kind v <> reflect.Slice ->
         isEmptyOrNil value = false
         /\ forall result failure,
             In failure (Failures result) -> Details failure = value ->
             hasErrors result = true)
  /\ (value = Some (VMap (Some [])) ->
      no_real_failure value = true /\ isEmptyOrNil value = false).
Proof.
  split; [|split].
  - rewrite isEmptyOrNil_true_iff. split.
    + intros [H|[H|H]]; [now left| |now right; right].
      right. left. exists "". now split.
    + intros [H|[[s [H Hs]]|H]]; [now left| |now right; right].
      right. left. destruct s; [exact H|discriminate Hs].
  - intros v -> Hstring Hslice.
    assert (Hv : isEmptyOrNil (Some v) = false).
    { destruct v; simpl in *; try reflexivity; congruence. }
    split; [exact Hv|].
    intros result failure Hin Hd. apply hasErrors_range_true_iff.
    exists failure. split; [exact Hin|]. now rewrite Hd.
  - intros ->. split; reflexivity.
Qed.

Lemma other_kinds_are_never_empty_witness :
  reflect.Value_Kind (VMap (Some [])) <> reflect.String
  /\ reflect.Value_Kind (VMap (Some [])) <> reflect.Slice
  /\ isEmptyOrNil (Some (VMap (Some []))) = false
  /\ hasErrors {| Failures := [{| Activity := "GoBuild";
                                 Details := Some (VMap (Some [])) |}] |} = true.
Proof.
  assert (Hstring : reflect.Value_Kind (VMap (Some [])) <> reflect.String)
    by discriminate.
  assert (Hslice : reflect.Value_Kind (VMap (Some [])) <> reflect.Slice)
    by discriminate.
  split; [exact Hstring|]. split; [exact Hslice|].
  destruct (other_kinds_are_never_empty (Some (VMap (Some [])))) as [_ [H _]].
  destruct (H (VMap (Some [])) eq_refl Hstring Hslice) as [Hempty Hgate].
  split; [exact Hempty|].
  apply (Hgate _ {| Activity := "GoBuild"; Details := Some (VMap (Some [])) |}).
  - now left.
  - reflexivity.
Defined.

(** ** Splitting into lines *)

Lemma string_app_assoc (a b c : string) :
  ((a ++ b) ++ c = a ++ (b ++ c))%string.
Proof. induction a as [|x a IH]; simpl; [reflexivity|now rewrite IH]. Qed.

Lemma string_app_nil_r (a : string) : (a ++ "" = a)%string.
Proof. induction a as [|x a IH]; simpl; [reflexivity|now rewrite IH]. Qed.

Lemma Split_not_nil (s : string) sep : Split s sep <> [].
Proof.
  destruct s as [|c rest]; simpl; [discriminate|].
  destruct (Ascii.eqb c sep); [discriminate|].
  destruct (Split rest sep); discriminate.
Qed.

(** A string without the separator is one piece. *)
Lemma Split_free (l : string) sep :
  Contains_byte l sep = false -> Split l sep = [l].
Proof.
  induction l as [|c l IH]; simpl; [reflexivity|].
  intros H. apply orb_false_iff in H. destruct H as [Hc Hl].
  rewrite Hc, (IH Hl). reflexivity.
Qed.

(** The first separator ends the first piece. *)
Lemma Split_app (l rest : string) sep :
  Contains_byte l sep = false ->
  Split (l ++ String sep rest) sep = l :: Split rest sep.
Proof.
  induction l as [|c l IH]; simpl.
  - intros _. now rewrite Ascii.eqb_refl.
  - intros H. apply orb_false_iff in H. destruct H as [Hc Hl].
    rewrite Hc, (IH Hl). reflexivity.
Qed.

(** No piece holds the separator. *)
Lemma Split_pieces_free (s : string) sep piece :
  In piece (Split s sep) -> Contains_byte piece sep = false.
Proof.
  revert piece. induction s as [|c s IH]; intros piece; simpl.
  - intros [<-|[]]. reflexivity.
  - destruct (Ascii.eqb c sep) eqn:E.
    + intros [<-|H]; [reflexivity|now apply IH].
    + destruct (Split s sep) as [|p ps] eqn:Es; simpl.
      * intros [<-|[]]. simpl. now rewrite E.
      * intros [<-|H].
        -- simpl. rewrite E. apply IH. now left.
        -- apply IH. now right.
Qed.

(** Lines that are each followed by a newline split into these lines and
    an empty last piece. *)
Lemma Split_unlines (lines : list string) :
  (forall line, In line lines -> Contains_byte line newline = false) ->
  Split (unlines lines) newline = lines ++ [""].
Proof.
  induction lines as [|l rest IH]; intros H; simpl; [reflexivity|].
  rewrite Split_app by (apply H; now left).
  rewrite IH by (intros x Hx; apply H; now right). reflexivity.
Qed.

(** The loop that appends what passes a test keeps the order. *)
Lemma fold_append_filter {A : Type} (keep : A -> bool) (xs kept : list A) :
  fold_left (fun acc x => if keep x then append acc x else acc) xs (Some kept)
  = Some (kept ++ filter keep xs).
Proof.
  revert kept. induction xs as [|x xs IH]; intros kept; simpl.
  - now rewrite app_nil_r.
  - destruct (keep x); [|apply IH].
    unfold append. simpl. rewrite IH. now rewrite <- app_assoc.
Qed.

Lemma nonempty_pieces_nil_iff (s : string) sep :
  filter (fun piece => Nat.ltb 0 (String.length piece)) (Split s sep) = []
  <-> only_byte s sep = true.
Proof.
  induction s as [|c s IH]; simpl; [tauto|].
  destruct (Ascii.eqb c sep); simpl; [exact IH|].
  destruct (Split s sep); simpl; split; discriminate.
Qed.

Lemma nonempty_pieces_Forall (s : string) sep :
  Forall (fun piece => piece <> "" /\ Contains_byte piece sep = false)
         (filter (fun piece => Nat.ltb 0 (String.length piece)) (Split s sep)).
Proof.
  apply Forall_forall. intros piece H. apply filter_In in H.
  destruct H as [Hin Hlen]. split.
  - intros ->. discriminate Hlen.
  - now apply (Split_pieces_free s).
Qed.

Lemma nonempty_unlines (names : list string) :
  (forall name, In name names ->
                name <> "" /\ Contains_byte name newline = false) ->
  filter (fun piece => Nat.ltb 0 (String.length piece))
         (Split (unlines names) newline) = names.
Proof.
  intros H. rewrite Split_unlines by (intros x Hx; now apply H).
  rewrite filter_app. simpl. rewrite app_nil_r.
  induction names as [|n rest IH]; simpl; [reflexivity|].
  destruct (H n (or_introl eq_refl)) as [Hn _].
  destruct n as [|c n]; [congruence|]. simpl.
  rewrite IH by (intros x Hx; apply H; now right). reflexivity.
Qed.

(** ** The formatting check *)

(** X1: when [go fmt] succeeds and prints file names, each followed by a
    newline, GoFmt returns exactly these names, in the order printed, with
    the metadata it was given. *)
Theorem GoFmt_returns_the_printed_files host params names :
  let out := cmd_Run host {| cmd_name := "go"; cmd_args := ["fmt"; "./..."];
                             cmd_Dir := Workdir (GoFmtParams_Metadata params) |} in
  run_err out = None ->
  Stdout out = unlines names ->
  (forall name, In name names ->
                name <> "" /\ Contains_byte name newline = false) ->
  snd (Activities.GoFmt host params)
  = inl {| GoFmtResult_Metadata := GoFmtParams_Metadata params;
           GoFmtResult_FailedFiles := Some names |}.
Proof.
  intros out Herr Hout Hnames. unfold Activities.GoFmt, Activities.Run.
  cbn [eff_bind eff_call GoFmtResult_Metadata GoFmtResult_FailedFiles].
  fold out. rewrite Herr. cbn [eff_ret snd].
  rewrite fold_append_filter. cbn [app]. rewrite Hout.
  now rewrite nonempty_unlines.
Qed.

Lemma GoFmt_returns_the_printed_files_witness :
  snd (Activities.GoFmt (quiet_host (unlines ["main.go"; "pipeline/run.go"]))
                        {| GoFmtParams_Metadata := test_workdir |})
  = inl {| GoFmtResult_Metadata := test_workdir;
           GoFmtResult_FailedFiles := Some ["main.go"; "pipeline/run.go"] |}.
Proof.
  apply (GoFmt_returns_the_printed_files
           (quiet_host (unlines ["main.go"; "pipeline/run.go"]))
           {| GoFmtParams_Metadata := test_workdir |}
           ["main.go"; "pipeline/run.go"]).
  - reflexivity.
  - reflexivity.
  - intros name [<-|[<-|[]]]; split; (discriminate || reflexivity).
Defined.

(** X2: whatever [go fmt] prints, a result of GoFmt lists no empty name
    and no name with a newline in it, and it lists nothing, so that the
    step passes in the workflow, exactly when the output holds nothing but
    newlines. *)
Theorem GoFmt_failed_files_are_lines host params result :
  snd (Activities.GoFmt host params) = inl result ->
  let out := cmd_Run host {| cmd_name := "go"; cmd_args := ["fmt"; "./..."];
                             cmd_Dir := Workdir (GoFmtParams_Metadata params) |} in
  exists files,
    GoFmtResult_FailedFiles result = Some files
    /\ Forall (fun file => file <> "" /\ Contains_byte file newline = false) files
    /\ (files = [] <-> only_byte (Stdout out) newline = true)
    /\ (step_failed (inl (Payload_GoFmt result)) = false
        <-> only_byte (Stdout out) newline = true).
Proof.
  intros H out. unfold Activities.GoFmt, Activities.Run in H.
  cbn [eff_bind eff_call GoFmtResult_Metadata GoFmtResult_FailedFiles] in H.
  fold out in H. destruct (run_err out); [discriminate H|].
  cbn [eff_ret snd] in H. rewrite fold_append_filter in H. cbn [app] in H.
  injection H as <-. cbn [GoFmtResult_FailedFiles step_failed len].
  eexists. split; [reflexivity|]. split; [apply nonempty_pieces_Forall|].
  split; [apply nonempty_pieces_nil_iff|].
  rewrite <- nonempty_pieces_nil_iff.
  destruct (filter _ _); split; intros Hx; first [reflexivity | discriminate Hx].
Qed.

Lemma GoFmt_failed_files_are_lines_witness :
  snd (Activities.GoFmt (quiet_host (unlines [""; "a.go"; ""]))
                        {| GoFmtParams_Metadata := test_workdir |})
  = inl {| GoFmtResult_Metadata := test_workdir;
           GoFmtResult_FailedFiles := Some ["a.go"] |}
  /\ exists files,
      Some ["a.go"] = Some files
      /\ Forall (fun file => file <> "" /\ Contains_byte file newline = false)
                files.
Proof.
  split; [reflexivity|].
  destruct (GoFmt_failed_files_are_lines (quiet_host (unlines [""; "a.go"; ""]))
              {| GoFmtParams_Metadata := test_workdir |}
              {| GoFmtResult_Metadata := test_workdir;
                 GoFmtResult_FailedFiles := Some ["a.go"] |} eq_refl)
    as [files [Hf [Hall _]]].
  exists files. split; [exact Hf|exact Hall].
Defined.

(** ** The lint check *)



(** ** The unit tests *)

Lemma Split_unlines_app (lines : list string) (last : string) :
  (forall line, In line lines -> Contains_byte line newline = false) ->
  Contains_byte last newline = false ->
  Split (unlines lines ++ last) newline = lines ++ [last].
Proof.
  intros H Hlast. induction lines as [|l rest IH]; simpl.
  - now apply Split_free.
  - rewrite string_app_assoc. simpl. rewrite Split_app by (apply H; now left).
    rewrite IH by (intros x Hx; apply H; now right). reflexivity.
Qed.

Lemma concat_comma_cons (l : string) (ls : list string) :
  ls <> [] ->
  String.concat "," (l :: ls) = (l ++ "," ++ String.concat "," ls)%string.
Proof. destruct ls; [congruence|reflexivity]. Qed.

(** The loop puts a comma after every line but the last two. *)
Lemma GoTest_body_last_two (ls : list string) (a b : string) :
  forall (i n : Z) (body : string),
    n = (i + Z.of_nat (length ls) + 2)%Z ->
    Activities.GoTest_body (ls ++ [a; b]) i n body
    = (body ++ String.concat "," (ls ++ [a ++ b]))%string.
Proof.
  induction ls as [|l ls IH]; intros i n body Hn.
  - simpl in *. subst n.
    replace (i + 0 + 2 - 2)%Z with i by lia.
    rewrite Z.ltb_irrefl.
    replace (i + 1 <? i)%Z with false by (symmetry; apply Z.ltb_ge; lia).
    now rewrite string_app_assoc.
  - cbn [app Activities.GoTest_body].
    replace (i <? n - 2)%Z with true
      by (symmetry; apply Z.ltb_lt; subst n; cbn [length]; lia).
    rewrite IH by (subst n; cbn [length]; lia).
    rewrite concat_comma_cons by (destruct ls; discriminate).
    now rewrite !string_app_assoc.
Qed.

(** X5: when the last line [go test] printed is not followed by a
    newline, the array GoTest hands to the JSON decoder has no comma
    between the last two lines: they make one element. *)
Theorem GoTest_array_unterminated (ls : list string) (a b : string) :
  (forall l, In l (ls ++ [a; b]) -> Contains_byte l newline = false) ->
  Activities.GoTest_array (unlines (ls ++ [a]) ++ b)
  = ("[" ++ String.concat "," (ls ++ [a ++ b]) ++ "]")%string.
Proof.
  intros H. unfold Activities.GoTest_array.
  rewrite Split_unlines_app.
  - rewrite <- app_assoc. cbn [app].
    rewrite (GoTest_body_last_two ls a b 0 _ "[").
    + now rewrite string_app_assoc.
    + rewrite length_app. cbn [length]. lia.
  - intros l Hl. apply H. apply in_app_or in Hl. apply in_or_app.
    destruct Hl as [Hl|[<-|[]]]; [now left|right; now left].
  - apply H. apply in_or_app. right. right. now left.
Qed.

Lemma GoTest_array_unterminated_witness :
  Activities.GoTest_array (unlines (["{1}"] ++ ["{2}"]) ++ "{3}")
  = ("[" ++ String.concat "," (["{1}"] ++ ["{2}" ++ "{3}"]) ++ "]")%string.
Proof.
  apply (GoTest_array_unterminated ["{1}"] "{2}" "{3}").
  intros l [<-|[<-|[<-|[]]]]; reflexivity.
Defined.

(** X4: when [go test] prints lines each followed by a newline, the array
    GoTest hands to the JSON decoder is these lines between brackets,
    separated by commas, with no comma after the last; for no line at all
    it is the empty array. *)
Theorem GoTest_array_of_lines (lines : list string) :
  (forall line, In line lines -> Contains_byte line newline = false) ->
  Activities.GoTest_array (unlines lines)
  = ("[" ++ String.concat "," lines ++ "]")%string.
Proof.
  intros H. destruct lines as [|x xs]; [reflexivity|].
  assert (Hne : x :: xs <> []) by discriminate.
  destruct (exists_last Hne) as [ls [a E]]. rewrite E in *.
  unfold Activities.GoTest_array. rewrite Split_unlines by exact H.
  rewrite <- app_assoc. cbn [app].
  rewrite (GoTest_body_last_two ls a "" 0 _ "[").
  - now rewrite string_app_nil_r, string_app_assoc.
  - rewrite length_app. cbn [length]. lia.
Qed.

Lemma GoTest_array_of_lines_witness :
  Activities.GoTest_array (unlines ["{1}"; "{2}"; "{3}"])
  = ("[" ++ String.concat "," ["{1}"; "{2}"; "{3}"] ++ "]")%string.
Proof.
  apply (GoTest_array_of_lines ["{1}"; "{2}"; "{3}"]).
  intros l [<-|[<-|[<-|[]]]]; reflexivity.
Defined.

Lemma filter_named_failure (testOutput : list GoTestCLIOutput) :
  Forall (fun line => Action line = "fail" /\ Test line <> "")
         (filter Activities.named_failure testOutput).
Proof.
  apply Forall_forall. intros line H. apply filter_In in H.
  destruct H as [_ H]. unfold Activities.named_failure in H.
  apply andb_true_iff in H. destruct H as [Ha Ht].
  split; [now apply String.eqb_eq|].
  intros E. rewrite E in Ht. discriminate Ht.
Qed.

(** X6: a result of GoTest carries the metadata it was given and lists
    only lines of the decoded output whose action is "fail" and that name
    a test; it lists some only when [go test] left with an exit status,
    and then they are these lines of the decoded array, in order. *)
Theorem GoTest_reports_named_failures host json params result :
  snd (Activities.GoTest host json params) = inl result ->
  let out := cmd_Run host
               {| cmd_name := "go";
                  cmd_args := ["test"; "./..."] ++ elements (GoTestParams_Flags params);
                  cmd_Dir := Workdir (GoTestParams_Metadata params) |} in
  GoTestResult_Metadata result = GoTestParams_Metadata params
  /\ exists tests,
      FailedTests result = Some tests
      /\ Forall (fun line => Action line = "fail" /\ Test line <> "") tests
      /\ (tests <> [] ->
          exists err code testOutput,
            run_err out = Some err /\ ExitCode err = Some code
            /\ json (Activities.GoTest_array (Stdout out)) = inl testOutput
            /\ tests = filter Activities.named_failure testOutput).
Proof.
  intros H out. unfold Activities.GoTest, Activities.Run in H.
  cbn [eff_bind eff_call GoTestResult_Metadata FailedTests] in H. fold out in H.
  destruct (run_err out) as [err|] eqn:Herr.
  - destruct (ExitCode err) as [code|] eqn:Hcode; [|discriminate H].
    destruct (json _) as [testOutput|e] eqn:Hjson; [|discriminate H].
    cbn [eff_ret snd] in H. rewrite fold_append_filter in H. cbn [app] in H.
    injection H as <-. cbn [GoTestResult_Metadata FailedTests].
    split; [reflexivity|]. eexists. split; [reflexivity|].
    split; [apply filter_named_failure|].
    intros _. exists err, code, testOutput. repeat split; assumption.
  - cbn [eff_ret snd] in H. injection H as <-.
    split; [reflexivity|]. exists []. split; [reflexivity|].
    split; [constructor|congruence].
Qed.

Lemma GoTest_reports_named_failures_witness :
  snd (Activities.GoTest (failing_host "") decode_two_failures
                         {| GoTestParams_Metadata := test_workdir;
                            GoTestParams_Flags := None |})
  = inl {| GoTestResult_Metadata := test_workdir;
           FailedTests :=
             Some [{| Action := "fail"; Package := "p"; Test := "TestFail";
                      Elapsed := 0%Z |}] |}
  /\ exists tests,
      Some [{| Action := "fail"; Package := "p"; Test := "TestFail";
               Elapsed := 0%Z |}] = Some tests
      /\ Forall (fun line => Action line = "fail" /\ Test line <> "") tests.
Proof.
  split; [reflexivity|].
  destruct (GoTest_reports_named_failures (failing_host "") decode_two_failures
              {| GoTestParams_Metadata := test_workdir;
                 GoTestParams_Flags := None |} _ eq_refl)
    as [_ [tests [Ht [Hall _]]]].
  exists tests. split; [exact Ht|exact Hall].
Defined.

Lemma filter_named_failure_nil (testOutput : list GoTestCLIOutput) :
  (forall line, In line testOutput -> Action line = "fail" -> Test line = "") ->
  filter Activities.named_failure testOutput = [].
Proof.
  induction testOutput as [|line rest IH]; intros Hnone; [reflexivity|].
  simpl. unfold Activities.named_failure at 1.
  destruct (String.eqb (Action line) "fail") eqn:Ea.
  - apply String.eqb_eq in Ea.
    rewrite (Hnone line (or_introl eq_refl) Ea). simpl.
    apply IH. intros x Hx. apply Hnone. now right.
  - simpl. apply IH. intros x Hx. apply Hnone. now right.
Qed.

(** X7: when [go test] leaves with an exit status and the decoded output
    holds no failing line that names a test (a package that fails as a
    whole, say), GoTest returns a result without failed tests and no
    error, and the step passes in the workflow. *)
Theorem GoTest_passes_without_named_failure host json params err code testOutput :
  let out := cmd_Run host
               {| cmd_name := "go";
                  cmd_args := ["test"; "./..."] ++ elements (GoTestParams_Flags params);
                  cmd_Dir := Workdir (GoTestParams_Metadata params) |} in
  run_err out = Some err ->
  ExitCode err = Some code ->
  json (Activities.GoTest_array (Stdout out)) = inl testOutput ->
  (forall line, In line testOutput -> Action line = "fail" -> Test line = "") ->
  snd (Activities.GoTest host json params)
  = inl {| GoTestResult_Metadata := GoTestParams_Metadata params;
           FailedTests := Some [] |}
  /\ step_failed
       (inl (Payload_GoTest {| GoTestResult_Metadata := GoTestParams_Metadata params;
                               FailedTests := Some [] |})) = false.
Proof.
  intros out Herr Hcode Hjson Hnone. split; [|reflexivity].
  unfold Activities.GoTest, Activities.Run.
  cbn [eff_bind eff_call GoTestResult_Metadata FailedTests]. fold out.
  rewrite Herr, Hcode, Hjson. cbn [eff_ret snd].
  rewrite fold_append_filter. cbn [app].
  now rewrite (filter_named_failure_nil _ Hnone).
Qed.

Lemma GoTest_passes_without_named_failure_witness :
  (forall line,
      In line [{| Action := "fail"; Package := "p"; Test := ""; Elapsed := 0%Z |}] ->
      Action line = "fail" -> Test line = "")
  /\ snd (Activities.GoTest (failing_host "") decode_package_failure
                            {| GoTestParams_Metadata := test_workdir;
                               GoTestParams_Flags := None |})
     = inl {| GoTestResult_Metadata := test_workdir; FailedTests := Some [] |}.
Proof.
  assert (H : forall line,
             In line [{| Action := "fail"; Package := "p"; Test := "";
                         Elapsed := 0%Z |}] ->
             Action line = "fail" -> Test line = "").
  { intros line [<-|[]] _. reflexivity. }
  split; [exact H|].
  apply (GoTest_passes_without_named_failure (failing_host "")
           decode_package_failure
           {| GoTestParams_Metadata := test_workdir; GoTestParams_Flags := None |}
           {| run_error := errors_New "exit status 1"; ExitCode := Some 1%Z |}
           1%Z _ eq_refl eq_refl eq_refl H).
Defined.

(** ** The steps that list no file *)

Lemma GoModTidy_lists_nothing host params result :
  snd (Activities.GoModTidy host params) = inl result ->
  GoModTidyResult_FailedFiles result = Some [].
Proof.
  unfold Activities.GoModTidy, Activities.Run. cbn [eff_bind eff_call].
  destruct (run_err _); [discriminate|]. now intros [= <-].
Qed.

Lemma GoBuild_lists_nothing host params result :
  snd (Activities.GoBuild host params) = inl result ->
  GoBuildResult_FailedFiles result = Some [].
Proof.
  unfold Activities.GoBuild, Activities.Run. cbn [eff_bind eff_call].
  destruct (run_err _); [discriminate|]. now intros [= <-].
Qed.

Lemma GoGenerate_lists_nothing host params result :
  snd (Activities.GoGenerate host params) = inl result ->
  GoGenerateResult_FailedFiles result = Some [].
Proof.
  unfold Activities.GoGenerate, Activities.Run. cbn [eff_bind eff_call].
  destruct (run_err _); [discriminate|]. now intros [= <-].
Qed.

(** X8: GoModTidy, GoBuild and GoGenerate never list a failed file; so,
    when the values their handles resolve to are values these activities
    returned, an entry of the report for one of these steps never carries
    a list of files: its details are the message of the error the handle
    resolved with. *)
Theorem build_steps_fail_only_by_error pa latency params metadata failure :
  (forall p r, GoModTidy pa p = inl r ->
               exists host, snd (Activities.GoModTidy host p) = inl r) ->
  (forall p r, GoBuild pa p = inl r ->
               exists host, snd (Activities.GoBuild host p) = inl r) ->
  (forall p r, GoGenerate pa p = inl r ->
               exists host, snd (Activities.GoGenerate host p) = inl r) ->
  In failure (Failures (classified pa latency params metadata)) ->
  In (Activity failure) ["GoModTidy"; "GoBuild"; "GoGenerate"] ->
  exists activity err,
    In activity (fanout_activities pa latency params metadata)
    /\ fst activity = Activity failure
    /\ resolved (snd activity) = inr err
    /\ Details failure = any_of_string (Error err).
Proof.
  intros Htidy Hbuild Hgen Hin Hname.
  destruct (classified_details _ _ _ _ _ Hin) as [activity [Ha [Hfailed ->]]].
  cbn [Activity Details] in *. exists activity.
  unfold fanout_activities in Ha. simpl in Ha.
  repeat destruct Ha as [Ha|Ha]; try contradiction; subst activity;
    cbn [fst snd resolved future_of resolution] in *;
    try (exfalso; simpl in Hname; intuition discriminate).
  - destruct (GoModTidy pa _) as [r|err] eqn:E.
    + exfalso. destruct (Htidy _ _ E) as [host Hr].
      apply GoModTidy_lists_nothing in Hr. cbn [step_failed] in Hfailed.
      rewrite Hr in Hfailed. discriminate Hfailed.
    + exists err. split; [simpl; auto 10|repeat split].
  - destruct (GoBuild pa _) as [r|err] eqn:E.
    + exfalso. destruct (Hbuild _ _ E) as [host Hr].
      apply GoBuild_lists_nothing in Hr. cbn [step_failed] in Hfailed.
      rewrite Hr in Hfailed. discriminate Hfailed.
    + exists err. split; [simpl; auto 10|repeat split].
  - destruct (GoGenerate pa _) as [r|err] eqn:E.
    + exfalso. destruct (Hgen _ _ E) as [host Hr].
      apply GoGenerate_lists_nothing in Hr. cbn [step_failed] in Hfailed.
      rewrite Hr in Hfailed. discriminate Hfailed.
    + exists err. split; [simpl; auto 10|repeat split].
Qed.

(** ** The deployment *)

Lemma GoDeploy_result host params result :
  snd (Activities.GoDeploy host params) = inl result ->
  result = {| Success := true; GoDeployResult_Error := None |}.
Proof.
  unfold Activities.GoDeploy.
  destruct (Activities.GoDeploy_steps host _); [discriminate|].
  now intros [= <-].
Qed.

(** X9: GoDeploy returns an error or a success without error; so, when
    the values the handle of Deploy resolves to are values GoDeploy
    returned, the report a run returns is the classified result as it
    stood at the gate: its entries are the fan-out steps that failed, in
    issue order, and nothing else. *)
Theorem repository_deploy_adds_no_entry pa latency params result h :
  (forall p r, GoDeploy pa p = inl r ->
               exists host, snd (Activities.GoDeploy host p) = inl r) ->
  run pa latency params = (Returned result, h) ->
  exists rClone,
    GitClone pa {| GitCloneParams_Metadata := zero_Metadata;
                   Remote := GitURL params |} = inl rClone
    /\ result = classified pa latency params (GitCloneResult_Metadata rClone)
    /\ map Activity (Failures result)
       = failed_steps pa params (GitCloneResult_Metadata rClone).
Proof.
  intros Hdeploy Hrun.
  destruct (returned_report _ _ _ _ _ Hrun) as [rClone [E Hf]].
  exists rClone. split; [exact E|].
  assert (Hentry : deploy_entry pa (GitCloneResult_Metadata rClone) = []).
  { unfold deploy_entry. destruct (GoDeploy pa _) as [r|err] eqn:Ed; [|reflexivity].
    destruct (Hdeploy _ _ Ed) as [host Hr]. apply GoDeploy_result in Hr.
    now subst r. }
  rewrite Hentry in Hf.
  assert (Hfs : Failures result
                = Failures (classified pa latency params
                                       (GitCloneResult_Metadata rClone))).
  { rewrite Hf. destruct (hasErrors _); now rewrite app_nil_r. }
  split.
  - destruct result as [fs]. destruct (classified _ _ _ _) as [fs'].
    simpl in Hfs. now subst fs.
  - now rewrite Hfs, classified_names.
Qed.

(** ** The clone and the cleanup *)

(** X10: when GitClone returns a result, [git clone <remote> .] was its
    last call and ran in the directory the result names.  Given a
    directory, GitClone makes no other call and returns the metadata as
    given; given none, it first makes a temporary directory, named after
    the workflow execution, and returns that one. *)
Theorem GitClone_clones_into_the_returned_workdir host params result :
  snd (Activities.GitClone host params) = inl result ->
  let clone :=
    Host_Run {| cmd_name := "git"; cmd_args := ["clone"; Remote params; "."];
                cmd_Dir := Workdir (GitCloneResult_Metadata result) |} in
  (Workdir (GitCloneParams_Metadata params) <> "" ->
   GitCloneResult_Metadata result = GitCloneParams_Metadata params
   /\ fst (Activities.GitClone host params) = [clone])
  /\ (Workdir (GitCloneParams_Metadata params) = "" ->
      os_MkdirTemp host (os_TempDir host) (WorkflowExecution_ID host)
      = inl (Workdir (GitCloneResult_Metadata result))
      /\ fst (Activities.GitClone host params)
         = [Host_MkdirTemp (os_TempDir host) (WorkflowExecution_ID host); clone]).
Proof.
  intros H clone. subst clone. revert H.
  unfold Activities.GitClone, Activities.MkdirTemp, Activities.Run.
  destruct (String.eqb (Workdir (GitCloneParams_Metadata params)) "") eqn:Ew.
  - apply String.eqb_eq in Ew.
    cbn [eff_bind eff_call eff_ret app].
    destruct (os_MkdirTemp host _ _) as [tempDir|err]; [|discriminate].
    cbn [eff_bind eff_call eff_ret eff_fail app GitCloneResult_Metadata Workdir].
    destruct (run_err _); [discriminate|].
    cbn [snd fst app]. intros [= <-]. split; [congruence|].
    intros _. split; reflexivity.
  - apply String.eqb_neq in Ew.
    cbn [eff_bind eff_call eff_ret app GitCloneResult_Metadata].
    destruct (run_err _); [discriminate|].
    cbn [snd fst app]. intros [= <-]. split; [|congruence].
    intros _. split; reflexivity.
Qed.

Lemma GitClone_clones_into_the_returned_workdir_witness :
  snd (Activities.GitClone (quiet_host "")
                           {| GitCloneParams_Metadata := zero_Metadata;
                              Remote := GitURL test_params |})
  = inl {| GitCloneResult_Metadata := {| Workdir := "/tmp/PipelineWorkflow-x123" |} |}
  /\ fst (Activities.GitClone (quiet_host "")
                              {| GitCloneParams_Metadata := zero_Metadata;
                                 Remote := GitURL test_params |})
     = [Host_MkdirTemp "/tmp" "PipelineWorkflow-x";
        Host_Run {| cmd_name := "git";
                    cmd_args := ["clone"; GitURL test_params; "."];
                    cmd_Dir := "/tmp/PipelineWorkflow-x123" |}].
Proof.
  split; [reflexivity|].
  destruct (GitClone_clones_into_the_returned_workdir (quiet_host "")
              {| GitCloneParams_Metadata := zero_Metadata;
                 Remote := GitURL test_params |} _ eq_refl) as [_ H].
  exact (proj2 (H eq_refl)).
Defined.

(** X11: GitClone never removes a directory.  When it was given none,
    made a temporary one and [git clone] then failed, it returns the
    error of git, wrapped, and the directory it made is left behind. *)
Theorem GitClone_leaves_its_directory_behind host params err :
  snd (Activities.GitClone host params) = inr err ->
  (forall path, ~ In (Host_RemoveAll path) (fst (Activities.GitClone host params)))
  /\ (forall tempDir,
         Workdir (GitCloneParams_Metadata params) = "" ->
         os_MkdirTemp host (os_TempDir host) (WorkflowExecution_ID host)
         = inl tempDir ->
         let clone := {| cmd_name := "git";
                         cmd_args := ["clone"; Remote params; "."];
                         cmd_Dir := tempDir |} in
         fst (Activities.GitClone host params)
         = [Host_MkdirTemp (os_TempDir host) (WorkflowExecution_ID host);
            Host_Run clone]
         /\ exists failure,
             run_err (cmd_Run host clone) = Some failure
             /\ err = Errorf_w "running git clone command: " (run_error failure)).
Proof.
  unfold Activities.GitClone, Activities.MkdirTemp, Activities.Run.
  destruct (String.eqb (Workdir (GitCloneParams_Metadata params)) "") eqn:Ew.
  - cbn [eff_bind eff_call eff_ret app].
    destruct (os_MkdirTemp host _ _) as [dir|e] eqn:Em.
    + cbn [eff_bind eff_call eff_ret eff_fail app GitCloneResult_Metadata Workdir].
      destruct (run_err _) as [failure|] eqn:Er; [|discriminate].
      cbn [snd fst app]. intros [= <-]. split.
      * intros path [H|[H|[]]]; discriminate H.
      * intros tempDir _ [= <-]. cbv zeta. split; [reflexivity|].
        exists failure. now split.
    + cbn [eff_bind eff_fail snd fst app]. intros _. split.
      * intros path [H|[]]. discriminate H.
      * intros tempDir _ H. discriminate H.
  - apply String.eqb_neq in Ew.
    cbn [eff_bind eff_call eff_ret app GitCloneResult_Metadata].
    destruct (run_err _); [|discriminate].
    cbn [snd fst app]. intros _. split.
    + intros path [H|[]]. discriminate H.
    + intros tempDir H. congruence.
Qed.

Lemma GitClone_leaves_its_directory_behind_witness :
  snd (Activities.GitClone (failing_host "")
                           {| GitCloneParams_Metadata := zero_Metadata;
                              Remote := GitURL test_params |})
  = inr (Errorf_w "running git clone command: " (errors_New "exit status 1"))
  /\ forall path,
      ~ In (Host_RemoveAll path)
           (fst (Activities.GitClone (failing_host "")
                                     {| GitCloneParams_Metadata := zero_Metadata;
                                        Remote := GitURL test_params |})).
Proof.
  split; [reflexivity|].
  exact (proj1 (GitClone_leaves_its_directory_behind (failing_host "")
                  {| GitCloneParams_Metadata := zero_Metadata;
                     Remote := GitURL test_params |} _ eq_refl)).
Defined.

(** X12: the cleanup of a run removes the directory its clone made: when
    GitClone, called as the workflow calls it, returns a result, the
    DeleteWorkdir that the workflow schedules with that result's metadata
    makes one call, the removal of the temporary directory GitClone had
    made. *)
Theorem cleanup_removes_the_cloned_directory host host' params pClone rClone pCleanup :
  clone_call params = Call_GitClone pClone ->
  snd (Activities.GitClone host pClone) = inl rClone ->
  cleanup_call (GitCloneResult_Metadata rClone) = Call_DeleteWorkdir pCleanup ->
  exists tempDir,
    os_MkdirTemp host (os_TempDir host) (WorkflowExecution_ID host) = inl tempDir
    /\ In (Host_MkdirTemp (os_TempDir host) (WorkflowExecution_ID host))
          (fst (Activities.GitClone host pClone))
    /\ fst (Activities.DeleteWorkdir host' pCleanup) = [Host_RemoveAll tempDir].
Proof.
  intros [= <-] Hclone [= <-].
  revert Hclone.
  unfold Activities.GitClone, Activities.MkdirTemp, Activities.Run.
  cbn [GitCloneParams_Metadata zero_Metadata Workdir String.eqb eff_bind eff_call
       eff_ret app].
  destruct (os_MkdirTemp host _ _) as [tempDir|err]; [|discriminate].
  cbn [eff_bind eff_call eff_ret eff_fail app GitCloneResult_Metadata Workdir].
  destruct (run_err _); [discriminate|].
  cbn [snd fst]. intros [= <-]. exists tempDir.
  split; [reflexivity|]. split; [now left|].
  unfold Activities.DeleteWorkdir, Activities.RemoveAll.
  cbn [eff_bind eff_call DeleteWorkdirParams_Metadata GitCloneResult_Metadata Workdir].
  destruct (os_RemoveAll host' tempDir); reflexivity.
Qed.

Lemma cleanup_removes_the_cloned_directory_witness :
  fst (Activities.DeleteWorkdir
         (quiet_host "")
         {| DeleteWorkdirParams_Metadata :=
             {| Workdir := "/tmp/PipelineWorkflow-x123" |} |})
  = [Host_RemoveAll "/tmp/PipelineWorkflow-x123"].
Proof.
  destruct (cleanup_removes_the_cloned_directory
              (quiet_host "") (quiet_host "") test_params _
              {| GitCloneResult_Metadata :=
                  {| Workdir := "/tmp/PipelineWorkflow-x123" |} |}
              _ eq_refl eq_refl eq_refl) as [tempDir [Hm [_ Hr]]].
  injection Hm as <-. exact Hr.
Defined.

Lemma build_steps_fail_only_by_error_witness :
  In {| Activity := "GoBuild";
        Details := any_of_string "running go build command: exit status 1" |}
     (Failures (classified (direct_worker (failing_host "") decode_empty_array)
                           lint_first test_params test_workdir))
  /\ exists activity err,
      In activity (fanout_activities
                     (direct_worker (failing_host "") decode_empty_array)
                     lint_first test_params test_workdir)
      /\ fst activity = "GoBuild"
      /\ resolved (snd activity) = inr err
      /\ any_of_string "running go build command: exit status 1"
         = any_of_string (Error err).
Proof.
  assert (Hin : In {| Activity := "GoBuild";
                      Details :=
                        any_of_string "running go build command: exit status 1" |}
                   (Failures (classified
                                (direct_worker (failing_host "") decode_empty_array)
                                lint_first test_params test_workdir)))
    by (vm_compute; auto 10).
  split; [exact Hin|].
  apply (build_steps_fail_only_by_error
           (direct_worker (failing_host "") decode_empty_array)
           lint_first test_params test_workdir _
           (fun p r H => ex_intro _ (failing_host "") H)
           (fun p r H => ex_intro _ (failing_host "") H)
           (fun p r H => ex_intro _ (failing_host "") H)
           Hin).
  right. now left.
Defined.

Lemma repository_deploy_adds_no_entry_witness :
  run (direct_worker (quiet_host "") decode_empty_array) lint_first test_params
  = (Returned {| Failures := [] |},
     snd (run (direct_worker (quiet_host "") decode_empty_array)
              lint_first test_params))
  /\ exists rClone,
      GitClone (direct_worker (quiet_host "") decode_empty_array)
               {| GitCloneParams_Metadata := zero_Metadata;
                  Remote := GitURL test_params |} = inl rClone
      /\ map Activity (Failures {| Failures := [] |})
         = failed_steps (direct_worker (quiet_host "") decode_empty_array)
                        test_params (GitCloneResult_Metadata rClone).
Proof.
  split; [reflexivity|].
  destruct (repository_deploy_adds_no_entry
              (direct_worker (quiet_host "") decode_empty_array)
              lint_first test_params {| Failures := [] |} _
              (fun p r H => ex_intro _ (quiet_host "") H) eq_refl)
    as [rClone [E [_ Hnames]]].
  exists rClone. split; [exact E|exact Hnames].
Defined.

(** ** The fan-in *)





(** ** How a run ends *)

(** X14: a run returns a report exactly when the handle of Clone
    resolves to a result, the handle of Deploy resolves to a result if the
    gate lets Deploy run, and the handle of the cleanup resolves without
    error; what the fan-out steps report never stands in the way. *)
Theorem run_returns_a_report_iff pa latency params :
  (exists result, fst (run pa latency params) = Returned result)
  <-> exists rClone,
      GitClone pa {| GitCloneParams_Metadata := zero_Metadata;
                     Remote := GitURL params |} = inl rClone
      /\ (hasErrors (classified pa latency params (GitCloneResult_Metadata rClone))
          = true
          \/ exists rDeploy,
              GoDeploy pa {| GoDeployParams_Metadata :=
                              GitCloneResult_Metadata rClone |} = inl rDeploy)
      /\ DeleteWorkdir pa {| DeleteWorkdirParams_Metadata :=
                              GitCloneResult_Metadata rClone |} = None.
Proof.
  destruct (GitClone pa {| GitCloneParams_Metadata := zero_Metadata;
                           Remote := GitURL params |}) as [rClone|err] eqn:E.
  - rewrite (run_clone_ok _ _ _ _ E). unfold cleaned_up. split.
    + intros [result H]. exists rClone. split; [reflexivity|].
      destruct (hasErrors _).
      * split; [now left|]. destruct (DeleteWorkdir pa _); [discriminate H|reflexivity].
      * destruct (GoDeploy pa _) as [rDeploy|e]; [|discriminate H].
        split; [right; now exists rDeploy|].
        destruct (DeleteWorkdir pa _); [discriminate H|reflexivity].
    + intros [rClone' [[= <-] [Hgate Hclean]]]. rewrite Hclean.
      destruct (hasErrors _); [eexists; reflexivity|].
      destruct Hgate as [Hgate|[rDeploy Hd]]; [discriminate Hgate|].
      rewrite Hd. eexists. reflexivity.
  - rewrite (run_clone_failed _ _ _ _ E). split.
    + intros [result H]. discriminate H.
    + intros [rClone [H _]]. discriminate H.
Qed.

(** X15: the error a run returns is always the error of the handle of
    Clone, of Deploy or of the cleanup, wrapped with the name of that
    activity; the error of a fan-out handle is never returned. *)
Theorem fatal_error_names_its_activity pa latency params err :
  fst (run pa latency params) = Failed err ->
  (exists e, GitClone pa {| GitCloneParams_Metadata := zero_Metadata;
                            Remote := GitURL params |} = inr e
             /\ err = Errorf_w "GitClone activity: " e)
  \/ exists rClone,
      GitClone pa {| GitCloneParams_Metadata := zero_Metadata;
                     Remote := GitURL params |} = inl rClone
      /\ ((exists e,
              hasErrors (classified pa latency params
                                    (GitCloneResult_Metadata rClone)) = false
              /\ GoDeploy pa {| GoDeployParams_Metadata :=
                                 GitCloneResult_Metadata rClone |} = inr e
              /\ err = Errorf_w "deploy activity: " e)
          \/ (exists e,
                 DeleteWorkdir pa {| DeleteWorkdirParams_Metadata :=
                                      GitCloneResult_Metadata rClone |} = Some e
                 /\ err = Errorf_w "deleteWorkdir activity: " e)).
Proof.
  destruct (GitClone pa {| GitCloneParams_Metadata := zero_Metadata;
                           Remote := GitURL params |}) as [rClone|e] eqn:E.
  - rewrite (run_clone_ok _ _ _ _ E). unfold cleaned_up. intros H.
    right. exists rClone. split; [reflexivity|].
    destruct (hasErrors _).
    + right. destruct (DeleteWorkdir pa _) as [e|]; [|discriminate H].
      exists e. split; [reflexivity|]. now injection H as <-.
    + destruct (GoDeploy pa _) as [rDeploy|e].
      * right. destruct (DeleteWorkdir pa _) as [e|]; [|discriminate H].
        exists e. split; [reflexivity|]. now injection H as <-.
      * left. exists e. repeat split. now injection H as <-.
  - rewrite (run_clone_failed _ _ _ _ E). intros [= <-].
    left. exists e. now split.
Qed.

Lemma fatal_error_names_its_activity_witness :
  fst (run deploy_unreachable lint_first test_params)
  = Failed (Errorf_w "deploy activity: " (errors_New "context canceled"))
  /\ ((exists e,
          GitClone deploy_unreachable
                   {| GitCloneParams_Metadata := zero_Metadata;
                      Remote := GitURL test_params |} = inr e
          /\ Errorf_w "deploy activity: " (errors_New "context canceled")
             = Errorf_w "GitClone activity: " e)
      \/ exists rClone,
          GitClone deploy_unreachable
                   {| GitCloneParams_Metadata := zero_Metadata;
                      Remote := GitURL test_params |} = inl rClone
          /\ ((exists e,
                  hasErrors (classified deploy_unreachable lint_first test_params
                                        (GitCloneResult_Metadata rClone)) = false
                  /\ GoDeploy deploy_unreachable
                              {| GoDeployParams_Metadata :=
                                  GitCloneResult_Metadata rClone |} = inr e
                  /\ Errorf_w "deploy activity: " (errors_New "context canceled")
                     = Errorf_w "deploy activity: " e)
              \/ (exists e,
                     DeleteWorkdir deploy_unreachable
                                   {| DeleteWorkdirParams_Metadata :=
                                       GitCloneResult_Metadata rClone |} = Some e
                     /\ Errorf_w "deploy activity: " (errors_New "context canceled")
                        = Errorf_w "deleteWorkdir activity: " e))).
Proof.
  split; [reflexivity|].
  apply (fatal_error_names_its_activity deploy_unreachable lint_first test_params).
  reflexivity.
Defined.

(** X16: appending an entry to a result shuts the gate exactly when the
    gate was shut already or the entry's details are not empty: an entry
    with empty details never shuts it, and nothing appended later opens
    it again. *)
Theorem hasErrors_append (result : PipelineResult) (failure : PipelineFailure) :
  hasErrors (append_failure result failure)
  = hasErrors result || negb (isEmptyOrNil (Details failure)).
Proof.
  unfold hasErrors, append_failure. cbn [Failures].
  induction (Failures result) as [|f rest IH]; simpl.
  - now destruct (negb (isEmptyOrNil (Details failure))).
  - destruct (negb (isEmptyOrNil (Details f))); [reflexivity|exact IH].
Qed.

(** ** The commands *)

(** X17: whenever the pipeline command submits a workflow, it submits the
    parameters decoded from the input file, which passed [Validate] and
    so have a repository URL; under the id "PipelineWorkflow-" followed by
    the slug of that URL; as workflow "PipelineWorkflow"; on the task
    queue of the Temporal options, through a client that connected; and
    it submits one workflow only. *)
Theorem RunPipeline_submits_validated_params proc id queue workflowType params :
  In (Client_ExecuteWorkflow id queue workflowType params) (fst (RunPipeline proc)) ->
  GitURL params <> ""
  /\ id = ("PipelineWorkflow-" ++ slug_Make proc (GitURL params))%string
  /\ workflowType = PipelineWorkflow_name
  /\ (exists tOpts,
         envconfig_temporal proc = inl tOpts /\ queue = Queue tOpts
         /\ tclient_DialContext proc (HostPort tOpts) (Namespace tOpts) = None)
  /\ (exists opts f,
         envconfig_workflow proc = inl opts
         /\ os_ReadFile proc (Input opts) = inl f
         /\ yaml_Unmarshal proc f = inl params)
  /\ length (filter is_ExecuteWorkflow (fst (RunPipeline proc))) = 1.
Proof.
  unfold RunPipeline, NewTemporalClient, Validate.
  destruct (envconfig_workflow proc) as [opts|e1];
    [|simpl; intros [H|[H|[]]]; discriminate H].
  destruct (envconfig_temporal proc) as [tOpts|e2];
    [|simpl; intros [H|[H|[]]]; discriminate H].
  cbn [eff_bind eff_call eff_defer app].
  destruct (tclient_DialContext proc _ _) as [e3|] eqn:Hdial;
    [simpl; intros [H|[H|[H|[]]]]; discriminate H|].
  destruct (os_ReadFile proc _) as [f|e4] eqn:Hread;
    [|simpl; intros [H|[H|[H|[H|[H|[]]]]]]; discriminate H].
  destruct (yaml_Unmarshal proc f) as [decoded|e5] eqn:Hyaml;
    [|simpl; intros [H|[H|[H|[H|[H|[]]]]]]; discriminate H].
  destruct (String.eqb (GitURL decoded) "") eqn:Hurl;
    [simpl; intros [H|[H|[H|[H|[H|[]]]]]]; discriminate H|].
  apply String.eqb_neq in Hurl.
  cbn [eff_bind eff_call eff_defer app].
  destruct (client_ExecuteWorkflow proc _ _ _ _) as [e6|].
  - simpl. intros [H|[H|[H|[H|[H|[H|[]]]]]]]; try discriminate H.
    injection H as <- <- <- <-.
    repeat split; try assumption; try reflexivity.
    + exists tOpts. repeat split. exact Hdial.
    + exists opts, f. repeat split; assumption.
  - destruct (workflowRun_Get proc _ _);
      simpl; intros [H|[H|[H|[H|[H|[H|[H|[]]]]]]]]; try discriminate H;
      injection H as <- <- <- <-;
      (repeat split; try assumption; try reflexivity;
       [exists tOpts; repeat split; exact Hdial
       |exists opts, f; repeat split; assumption]).
Qed.

Lemma RunPipeline_submits_validated_params_witness :
  In (Client_ExecuteWorkflow
        "PipelineWorkflow-https://github.com/afanwang/go-sample.git"
        "pipeline" "PipelineWorkflow" test_params)
     (fst (RunPipeline (ready_process test_params)))
  /\ GitURL test_params <> ""
  /\ length (filter is_ExecuteWorkflow
                    (fst (RunPipeline (ready_process test_params)))) = 1.
Proof.
  assert (Hin : In (Client_ExecuteWorkflow
                      "PipelineWorkflow-https://github.com/afanwang/go-sample.git"
                      "pipeline" "PipelineWorkflow" test_params)
                   (fst (RunPipeline (ready_process test_params))))
    by (do 3 right; left; reflexivity).
  split; [exact Hin|].
  destruct (RunPipeline_submits_validated_params (ready_process test_params)
              _ _ _ _ Hin) as [Hurl [_ [_ [_ [_ Hone]]]]].
  split; [exact Hurl|exact Hone].
Defined.

(** X18: the pipeline command closes the Temporal client exactly once
    when it connected, after every other use of the client and just
    before it releases the signal context, on every way out, with or
    without an error; it never closes a client when it did not connect;
    and releasing the signal context is always its last call. *)
Theorem RunPipeline_closes_the_client proc :
  let calls := fst (RunPipeline proc) in
  (forall opts tOpts,
      envconfig_workflow proc = inl opts ->
      envconfig_temporal proc = inl tOpts ->
      tclient_DialContext proc (HostPort tOpts) (Namespace tOpts) = None ->
      exists body,
        calls = [Signal_NotifyContext;
                 Client_Dial (HostPort tOpts) (Namespace tOpts)]
                ++ body ++ [Client_Close; Signal_cancel]
        /\ filter is_Close body = [])
  /\ ((forall opts tOpts,
          envconfig_workflow proc = inl opts ->
          envconfig_temporal proc = inl tOpts ->
          tclient_DialContext proc (HostPort tOpts) (Namespace tOpts) <> None) ->
      filter is_Close calls = [])
  /\ exists before, calls = Signal_NotifyContext :: before ++ [Signal_cancel].
Proof.
  unfold RunPipeline, NewTemporalClient, Validate.
  destruct (envconfig_workflow proc) as [opts|e1].
  2:{ simpl. split; [|split].
      - intros o t H. discriminate H.
      - reflexivity.
      - now exists []. }
  destruct (envconfig_temporal proc) as [tOpts|e2].
  2:{ simpl. split; [|split].
      - intros o t _ H. discriminate H.
      - reflexivity.
      - now exists []. }
  cbn [eff_bind eff_call eff_defer app].
  destruct (tclient_DialContext proc (HostPort tOpts) (Namespace tOpts))
    as [e3|] eqn:Hdial.
  { simpl. split; [|split].
    - intros o t _ [= <-] H. congruence.
    - reflexivity.
    - now exists [Client_Dial (HostPort tOpts) (Namespace tOpts)]. }
  destruct (os_ReadFile proc _) as [f|e4];
    [destruct (yaml_Unmarshal proc f) as [decoded|e5];
     [destruct (String.eqb (GitURL decoded) "");
      [|cbn [eff_bind eff_call eff_defer app];
        destruct (client_ExecuteWorkflow proc _ _ _ _) as [e6|];
        [|destruct (workflowRun_Get proc _ _)]]|]|].
  all: cbn [eff_bind eff_call eff_defer eff_fail eff_ret app fst].
  all: split; [|split].
  all: try (intros Hnone; exfalso; exact (Hnone opts tOpts eq_refl eq_refl Hdial)).
  all: try (intros o t _ [= <-] _;
            match goal with
            | |- exists body, _ :: _ :: ?l = _ /\ _ =>
                exists (removelast (removelast l)); split; reflexivity
            end).
  all: match goal with
       | |- exists before, _ :: ?l = _ =>
           exists (removelast l); reflexivity
       end.
Qed.

Lemma RunPipeline_closes_the_client_witness :
  fst (RunPipeline (ready_process no_url_params))
  = [Signal_NotifyContext; Client_Dial "localhost:6433" "default";
     OS_ReadFile "simple.yaml"; Client_Close; Signal_cancel]
  /\ filter is_Close (fst (RunPipeline offline_process)) = [].
Proof.
  split; [reflexivity|].
  apply (proj1 (proj2 (RunPipeline_closes_the_client offline_process))).
  intros opts tOpts _ [= <-]. discriminate.
Defined.

(** X19: the command line [pipeline], with an input file whose
    repository URL is empty, connects, reads the file, closes the client
    and exits with status 1: it never submits a workflow. *)
Theorem pipeline_command_rejects_an_empty_url proc prog opts tOpts f params :
  envconfig_workflow proc = inl opts ->
  envconfig_temporal proc = inl tOpts ->
  tclient_DialContext proc (HostPort tOpts) (Namespace tOpts) = None ->
  os_ReadFile proc (Input opts) = inl f ->
  yaml_Unmarshal proc f = inl params ->
  GitURL params = "" ->
  main proc [prog; "pipeline"]
  = ([Signal_NotifyContext; Client_Dial (HostPort tOpts) (Namespace tOpts);
      OS_ReadFile (Input opts); Client_Close; Signal_cancel], 1%Z).
Proof.
  intros Hw Ht Hd Hr Hy Hurl.
  unfold main, commands. cbn [length Nat.ltb Nat.leb nth String.eqb Ascii.eqb Bool.eqb].
  unfold RunPipeline, NewTemporalClient, Validate.
  rewrite Hw, Ht. cbn [eff_bind eff_call eff_defer app].
  rewrite Hd, Hr, Hy, Hurl. reflexivity.
Qed.

Lemma pipeline_command_rejects_an_empty_url_witness :
  main (ready_process no_url_params) ["temporal-workflow"; "pipeline"]
  = ([Signal_NotifyContext; Client_Dial "localhost:6433" "default";
      OS_ReadFile "simple.yaml"; Client_Close; Signal_cancel], 1%Z).
Proof.
  apply (pipeline_command_rejects_an_empty_url
           (ready_process no_url_params) "temporal-workflow"
           {| Input := "simple.yaml" |}
           {| HostPort := "localhost:6433"; Namespace := "default";
              Queue := "pipeline" |}
           "git_url: ..." no_url_params);
    reflexivity.
Defined.

(** X20: a worker that connected registers, before it starts polling the
    task queue of the Temporal options, the workflow under the name the
    pipeline command submits, and an activity for every call the workflow
    can schedule; it closes the client when the worker stops. *)
Theorem RunWorker_registers_what_the_workflow_schedules proc tOpts :
  envconfig_temporal proc = inl tOpts ->
  envconfig_worker proc = None ->
  tclient_DialContext proc (HostPort tOpts) (Namespace tOpts) = None ->
  exists registrations,
    fst (RunWorker proc)
    = [Client_Dial (HostPort tOpts) (Namespace tOpts); Worker_New (Queue tOpts)]
      ++ registrations ++ [Worker_Run; Client_Close]
    /\ In (Worker_RegisterWorkflow PipelineWorkflow_name) registrations
    /\ (forall c : ActivityCall,
           In (Worker_RegisterActivity (activity_name c)) registrations)
    /\ (forall pa latency params c,
           In (ActivityScheduled c) (snd (run pa latency params)) ->
           In (Worker_RegisterActivity (activity_name c)) registrations).
Proof.
  intros Ht Hw Hd. unfold RunWorker, NewTemporalClient. rewrite Ht, Hw.
  cbn [eff_bind eff_call eff_defer app]. rewrite Hd.
  assert (Hreg : forall c : ActivityCall,
             In (Worker_RegisterActivity (activity_name c))
                [Worker_RegisterWorkflow "PipelineWorkflow";
                 Worker_RegisterActivity "GitClone";
                 Worker_RegisterActivity "GoTest";
                 Worker_RegisterActivity "GoFmt";
                 Worker_RegisterActivity "GoGenerate";
                 Worker_RegisterActivity "GoModTidy";
                 Worker_RegisterActivity "GolangCILint";
                 Worker_RegisterActivity "GoBuild";
                 Worker_RegisterActivity "GoDeploy";
                 Worker_RegisterActivity "DeleteWorkdir"])
    by (intros []; simpl; auto 12).
  exists [Worker_RegisterWorkflow "PipelineWorkflow";
          Worker_RegisterActivity "GitClone";
          Worker_RegisterActivity "GoTest";
          Worker_RegisterActivity "GoFmt";
          Worker_RegisterActivity "GoGenerate";
          Worker_RegisterActivity "GoModTidy";
          Worker_RegisterActivity "GolangCILint";
          Worker_RegisterActivity "GoBuild";
          Worker_RegisterActivity "GoDeploy";
          Worker_RegisterActivity "DeleteWorkdir"].
  split; [|split; [|split]].
  - destruct (worker_Run proc); cbn [eff_bind eff_call eff_defer eff_fail eff_ret app fst];
      reflexivity.
  - now left.
  - exact Hreg.
  - intros pa latency params c _. apply Hreg.
Qed.

Lemma RunWorker_registers_what_the_workflow_schedules_witness :
  exists registrations,
    fst (RunWorker (ready_process test_params))
    = [Client_Dial "localhost:6433" "default"; Worker_New "pipeline"]
      ++ registrations ++ [Worker_Run; Client_Close]
    /\ In (Worker_RegisterWorkflow PipelineWorkflow_name) registrations.
Proof.
  destruct (RunWorker_registers_what_the_workflow_schedules
              (ready_process test_params)
              {| HostPort := "localhost:6433"; Namespace := "default";
                 Queue := "pipeline" |} eq_refl eq_refl eq_refl)
    as [registrations [Hcalls [Hwf _]]].
  exists registrations. split; [exact Hcalls|exact Hwf].
Defined.
